(** * BAC0 points: a shallow embedding of [BAC0/core/devices/Points.py]

    The module defines [Point] and its three variants [NumericPoint],
    [BooleanPoint] and [EnumPoint].  A point reads through its owning device,
    records every reading in a history, and sends textual commands to the
    device's network object.

    The embedding follows the Python source method by method:
    - Python values are the inductive [pyval];
    - exceptions are values of [exn], and a call returns a [result];
    - the mutable point object, the collaborator's own state and the list of
      calls made to the collaborator are threaded through a small
      state-and-exception monad [M];
    - the device and its network object are records of methods acting on an
      arbitrary collaborator state (their code lies outside [Points.py], so
      every theorem holds for all of them);
    - what the interpreter and pandas do (parsing and printing numbers,
      building a series) is taken as given, in the classes [PyRuntime],
      [PyFormat] and [Pandas]. *)

From Stdlib Require Import ZArith List String Ascii Bool Lia.
From Stdlib Require Import SpecFloat DecimalString.
Import ListNotations.

Local Open Scope string_scope.
Local Open Scope Z_scope.

(** ** Python values *)

(** The values that reach a point: readings, values to write, priorities,
    addresses.  A Python [float] is an IEEE 754 binary64 number, here a
    [spec_float] of the Standard Library. *)
Inductive pyval : Type :=
| PyNone
| PyBool (b : bool)
| PyInt (z : Z)
| PyFloat (f : spec_float)
| PyStr (s : string).

(** Exceptions.  The source raises [ValueError] and [Exception] itself; the
    other classes come from built-ins ([float], [int], indexing) and the
    texts of those are abbreviated.  A collaborator may raise anything,
    [CollaboratorError] stands for its own failures. *)
Inductive exn : Type :=
| ValueError (msg : string)
| TypeError (msg : string)
| OverflowError (msg : string)
| IndexError (msg : string)
| AttributeError (msg : string)
| Exception (msg : string)
| CollaboratorError (msg : string).

Inductive result (A : Type) : Type :=
| Ok (a : A)
| Raise (e : exn).
Arguments Ok {A} a.
Arguments Raise {A} e.

Definition is_ok {A} (r : result A) : bool :=
  match r with Ok _ => true | Raise _ => false end.

(** ** Built-ins used by the source *)

(** Parsing a string as a number and printing a float are the interpreter's
    business; they are taken as given. *)
Class PyRuntime : Type := {
  float_of_str : string -> option spec_float;
  int_of_str : string -> option Z;
  repr_float : spec_float -> string
}.

Definition binary64_of_Z (z : Z) : spec_float :=
  binary_normalize 53 1024 z 0 false.

(** [a <= b] and [a >= b] on floats; both are false on NaN. *)
Definition float_le (a b : spec_float) : bool := SFleb a b.
Definition float_ge (a b : spec_float) : bool := SFleb b a.

(** [f >= 1 and f <= 16]. *)
Definition between_1_and_16 (f : spec_float) : bool :=
  float_ge f (binary64_of_Z 1) && float_le f (binary64_of_Z 16).

(** Truncation towards zero of a finite float, as [int(x)] does. *)
Definition trunc_float (f : spec_float) : result Z :=
  match f with
  | S754_zero _ => Ok 0
  | S754_infinity _ =>
      Raise (OverflowError "cannot convert float infinity to integer")
  | S754_nan => Raise (ValueError "cannot convert float NaN to integer")
  | S754_finite s m e => Ok (cond_Zopp s (Z.shiftl (Zpos m) e))
  end.

Section Builtins.
Context {rt : PyRuntime}.

(** [str(v)], also what [%s] prints. *)
Definition py_str (v : pyval) : string :=
  match v with
  | PyNone => "None"
  | PyBool true => "True"
  | PyBool false => "False"
  | PyInt z => NilZero.string_of_int (Z.to_int z)
  | PyFloat f => repr_float f
  | PyStr s => s
  end.

(** [float(v)]. *)
Definition py_float (v : pyval) : result spec_float :=
  match v with
  | PyNone => Raise (TypeError "float() argument must be a string or a number")
  | PyBool b => Ok (binary64_of_Z (if b then 1 else 0))
  | PyInt z =>
      match binary64_of_Z z with
      | S754_infinity _ =>
          Raise (OverflowError "int too large to convert to float")
      | f => Ok f
      end
  | PyFloat f => Ok f
  | PyStr s =>
      match float_of_str s with
      | Some f => Ok f
      | None => Raise (ValueError "could not convert string to float")
      end
  end.

(** [int(v)]. *)
Definition py_int (v : pyval) : result Z :=
  match v with
  | PyNone => Raise (TypeError "int() argument must be a string or a number")
  | PyBool b => Ok (if b then 1 else 0)
  | PyInt z => Ok z
  | PyFloat f => trunc_float f
  | PyStr s =>
      match int_of_str s with
      | Some z => Ok z
      | None => Raise (ValueError "invalid literal for int() with base 10")
      end
  end.
End Builtins.

(** [v == s] for a string literal [s]: only a string can be equal to it. *)
Definition py_eq_str (v : pyval) (s : string) : bool :=
  match v with
  | PyStr t => String.eqb t s
  | _ => false
  end.

Definition py_ne_str (v : pyval) (s : string) : bool := negb (py_eq_str v s).

(** [needle in hay] on strings. *)
Fixpoint str_in (needle hay : string) : bool :=
  if prefix needle hay then true
  else match hay with
       | EmptyString => false
       | String _ rest => str_in needle rest
       end.

(** [l[i]] with Python's indexing: a negative index counts from the end. *)
Definition py_index {A} (l : list A) (i : Z) : result A :=
  let n := Z.of_nat (List.length l) in
  let j := if i <? 0 then i + n else i in
  if (j <? 0) || (n <=? j) then Raise (IndexError "index out of range")
  else match nth_error l (Z.to_nat j) with
       | Some x => Ok x
       | None => Raise (IndexError "index out of range")
       end.

(** What [units_state] holds: nothing, a unit label (numeric points) or the
    ordered table of state labels (enumerated points). *)
Inductive units_state_t : Type :=
| NoUnits
| UnitLabel (label : string)
| StateTable (states : list pyval).

(** [units_state[i]]. *)
Definition py_subscript (u : units_state_t) (i : Z) : result pyval :=
  match u with
  | NoUnits => Raise (TypeError "'NoneType' object is not subscriptable")
  | UnitLabel label =>
      match py_index (list_ascii_of_string label) i with
      | Ok c => Ok (PyStr (String c EmptyString))
      | Raise e => Raise e
      end
  | StateTable states => py_index states i
  end.

(** ** Built-ins used by [__repr__] *)

(** Printing a float with two decimals and printing a list are the
    interpreter's business too. *)
Class PyFormat : Type := {
  format_2f : spec_float -> string;
  str_list : list pyval -> string
}.

Section Formatting.
Context {rt : PyRuntime} {fmt : PyFormat}.

(** ['%.2f' % v]: [v] must be a real number; an integer or a boolean is
    converted to a float first. *)
Definition py_format_2f (v : pyval) : result string :=
  match v with
  | PyFloat f => Ok (format_2f f)
  | PyInt _ | PyBool _ =>
      match py_float v with
      | Ok f => Ok (format_2f f)
      | Raise e => Raise e
      end
  | PyStr _ | PyNone => Raise (TypeError "must be real number")
  end.

(** [str(units_state)]. *)
Definition str_units (u : units_state_t) : string :=
  match u with
  | NoUnits => "None"
  | UnitLabel label => label
  | StateTable states => str_list states
  end.
End Formatting.

(** ** The collaborators: a device and its network object *)

(** [datetime.now()] yields a time stamp; only its position in the history
    matters here. *)
Definition datetime : Type := Z.

(** [pd.Series(values, index=...)] is the business of pandas: the type of
    a series, and the series its constructor builds from a list of values
    and a list of time stamps (it chooses a type for the values, so a
    [None] among numbers becomes NaN, and it raises when the two lists
    differ in length).  It reads the two lists and changes neither. *)
Class Pandas : Type := {
  Series : Type;
  pd_Series : list pyval -> list datetime -> result Series
}.

(** The collaborator's own state is any type [W]; reading the clock may
    change it as well. *)
Class World (W : Type) : Type := {
  datetime_now : W -> datetime * W
}.

(** [device.network]: three entry points, each taking one command string.
    A call returns a value (ignored by the point) or raises. *)
Module Network.
Record t (W : Type) : Type := mk {
  write : string -> W -> result pyval * W;
  sim : string -> W -> result pyval * W;
  release : string -> W -> result pyval * W
}.
Arguments mk {W}.
Arguments write {W}.
Arguments sim {W}.
Arguments release {W}.
End Network.

(** [device]: its address, [read(name)] and the network object. *)
Module Device.
Record t (W : Type) : Type := mk {
  addr : pyval;
  read : string -> W -> result pyval * W;
  network : Network.t W
}.
Arguments mk {W}.
Arguments addr {W}.
Arguments read {W}.
Arguments network {W}.
End Device.

(** A call that reached the collaborator, in the order made. *)
Inductive call : Type :=
| CallRead (name : string)
| CallWrite (cmd : string)
| CallSim (cmd : string)
| CallRelease (cmd : string).

(** ** The point object *)

Module Obj.
(** [self.properties].  The type is the name of the object type, such as
    ["analogValue"]: a string, searched with [in] and printed with [%s]. *)
Record properties_t (W : Type) : Type := mk_properties {
  device : Device.t W;
  name : string;
  type : string;
  address : pyval;
  description : pyval;
  units_state : units_state_t;
  simulated : bool;
  overridden : bool
}.
Arguments mk_properties {W}.
Arguments device {W}.
Arguments name {W}.
Arguments type {W}.
Arguments address {W}.
Arguments description {W}.
Arguments units_state {W}.
Arguments simulated {W}.
Arguments overridden {W}.

(** [self._history]: two lists, filled in step. *)
Record history_t : Type := mk_history {
  timestamp : list datetime;
  value : list pyval
}.

(** The instance.  [_key] and [_boolKey] exist only once a
    [BooleanPoint] has been read. *)
Record point (W : Type) : Type := mk_point {
  properties : properties_t W;
  _history : history_t;
  _key : option Z;
  _boolKey : option bool
}.
Arguments mk_point {W}.
Arguments properties {W}.
Arguments _history {W}.
Arguments _key {W}.
Arguments _boolKey {W}.

Section Setters.
Context {W : Type}.

Definition set_simulated (b : bool) (p : point W) : point W :=
  let q := properties p in
  mk_point
    (mk_properties (device q) (name q) (type q) (address q)
       (description q) (units_state q) b (overridden q))
    (_history p) (_key p) (_boolKey p).

Definition set_overridden (b : bool) (p : point W) : point W :=
  let q := properties p in
  mk_point
    (mk_properties (device q) (name q) (type q) (address q)
       (description q) (units_state q) (simulated q) b)
    (_history p) (_key p) (_boolKey p).

Definition append_timestamp (t : datetime) (p : point W) : point W :=
  mk_point (properties p)
    (mk_history (timestamp (_history p) ++ [t])%list (value (_history p)))
    (_key p) (_boolKey p).

Definition append_value (v : pyval) (p : point W) : point W :=
  mk_point (properties p)
    (mk_history (timestamp (_history p)) (value (_history p) ++ [v])%list)
    (_key p) (_boolKey p).

Definition set_key (k : Z) (p : point W) : point W :=
  mk_point (properties p) (_history p) (Some k) (_boolKey p).

Definition set_boolKey (b : bool) (p : point W) : point W :=
  mk_point (properties p) (_history p) (_key p) (Some b).
End Setters.
End Obj.

(** ** State and exceptions *)

(** What a method call can change: the point itself, the collaborator's
    state, and the record of calls made to the collaborator. *)
Record state (W : Type) : Type := mk_state {
  self : Obj.point W;
  world : W;
  calls : list call
}.
Arguments mk_state {W}.
Arguments self {W}.
Arguments world {W}.
Arguments calls {W}.

(** A method returns a value or raises; either way the mutations made so far
    stay. *)
Definition M (W A : Type) : Type := state W -> result A * state W.

Section Monad.
Context {W : Type}.

Definition ret {A} (a : A) : M W A := fun s => (Ok a, s).

Definition raise {A} (e : exn) : M W A := fun s => (Raise e, s).

Definition bind {A B} (m : M W A) (k : A -> M W B) : M W B :=
  fun s =>
    match m s with
    | (Ok a, s') => k a s'
    | (Raise e, s') => (Raise e, s')
    end.

(** A built-in that may raise but touches nothing. *)
Definition lift {A} (r : result A) : M W A := fun s => (r, s).

Definition get_self : M W (Obj.point W) := fun s => (Ok (self s), s).

Definition modify_self (f : Obj.point W -> Obj.point W) : M W unit :=
  fun s => (Ok tt, mk_state (f (self s)) (world s) (calls s)).

(** A call into the collaborator: logged, then answered by it. *)
Definition collaborator (c : call) (f : W -> result pyval * W) : M W pyval :=
  fun s =>
    let '(r, w) := f (world s) in
    (r, mk_state (self s) w (calls s ++ [c])%list).

Definition now `{World W} : M W datetime :=
  fun s =>
    let '(t, w) := datetime_now (world s) in
    (Ok t, mk_state (self s) w (calls s)).
End Monad.

Declare Scope py_scope.
Delimit Scope py_scope with py.
Notation "x <- m ;; k" := (bind m (fun x => k))
  (at level 61, m at next level, right associativity) : py_scope.
Notation "m ;; k" := (bind m (fun _ => k))
  (at level 61, right associativity) : py_scope.
Local Open Scope py_scope.

(** ** class Point *)

Module Point.
Section Methods.
Context {W : Type} `{World W} {rt : PyRuntime}.

(** [Point.__init__]: the history starts with the value and the time of
    construction; both flags start false. *)
Definition __init__ (device : Device.t W) (pointType : string)
    (pointAddress : pyval) (pointName : string) (description : pyval)
    (presentValue : pyval) (units_state : units_state_t) (w : W)
  : Obj.point W * W :=
  let '(t, w') := datetime_now w in
  (Obj.mk_point
     (Obj.mk_properties device pointName pointType pointAddress
        description units_state false false)
     (Obj.mk_history [t] [presentValue])
     None None,
   w').

(** [self.properties.device.read(self.properties.name)]. *)
Definition device_read : M W pyval :=
  p <- get_self ;;
  let name := Obj.name (Obj.properties p) in
  collaborator (CallRead name)
    (Device.read (Obj.device (Obj.properties p)) name).

(** [Point.value]. *)
Definition value : M W pyval :=
  res <- device_read ;;
  t <- now ;;
  modify_self (Obj.append_timestamp t) ;;
  modify_self (Obj.append_value res) ;;
  ret res.

(** [Point.units]. *)
Definition units : M W units_state_t :=
  raise (Exception "Must be overridden").

(** [Point.lastValue]. *)
Definition lastValue : M W pyval :=
  p <- get_self ;;
  lift (py_index (Obj.value (Obj._history p)) (-1)).

(** [Point.history]:
    [pd.Series(self._history.value, index=self._history.timestamp)]. *)
Definition history {pd : Pandas} : M W Series :=
  p <- get_self ;;
  lift (pd_Series (Obj.value (Obj._history p))
          (Obj.timestamp (Obj._history p))).

(** [Point.__getitem__]. *)
Definition __getitem__ (key : pyval) : M W pyval :=
  raise (Exception "Not implemented yet").

(** The command of [Point.write]:
    ['%s %s %s %s %s %s' % (addr, type, str(address), prop, str(value),
    str(priority))]. *)
Definition write_command (p : Obj.point W) (value : pyval) (prop : string)
    (priority : pyval) : string :=
  py_str (Device.addr (Obj.device (Obj.properties p))) ++ " " ++
  Obj.type (Obj.properties p) ++ " " ++
  py_str (Obj.address (Obj.properties p)) ++ " " ++
  prop ++ " " ++ py_str value ++ " " ++ py_str priority.

Definition priority_error : exn :=
  ValueError "Priority must be a number between 1 and 16".

(** The test of [Point.write] on a given priority, evaluated left to
    right as [and] does; [isinstance(float(priority), float)] holds
    whenever [float(priority)] returns. *)
Definition check_priority (priority : pyval) : M W pyval :=
  _ <- lift (py_float priority) ;;
  f1 <- lift (py_float priority) ;;
  if float_ge f1 (binary64_of_Z 1) then
    f2 <- lift (py_float priority) ;;
    if float_le f2 (binary64_of_Z 16) then
      ret (PyStr ("- " ++ py_str priority))
    else raise priority_error
  else raise priority_error.

(** [Point.write(value, prop=..., priority=...)]; the defaults are
    [prop='presentValue'] and [priority='']. *)
Definition write (value : pyval) (prop : string) (priority : pyval)
  : M W unit :=
  priority <- (if py_ne_str priority "" then check_priority priority
               else ret priority) ;;
  p <- get_self ;;
  let cmd := write_command p value prop priority in
  collaborator (CallWrite cmd)
    (Network.write (Device.network (Obj.device (Obj.properties p))) cmd) ;;
  ret tt.

(** [Point.default]. *)
Definition default (value : pyval) : M W unit :=
  write value "relinquishDefault" (PyStr "").

(** ['%s %s %s presentValue %s' % (addr, type, str(address), str(value))]. *)
Definition sim_command (p : Obj.point W) (value : pyval) : string :=
  py_str (Device.addr (Obj.device (Obj.properties p))) ++ " " ++
  Obj.type (Obj.properties p) ++ " " ++
  py_str (Obj.address (Obj.properties p)) ++ " presentValue " ++
  py_str value.

(** [Point.sim]. *)
Definition sim (value : pyval) : M W unit :=
  p <- get_self ;;
  let cmd := sim_command p value in
  collaborator (CallSim cmd)
    (Network.sim (Device.network (Obj.device (Obj.properties p))) cmd) ;;
  modify_self (Obj.set_simulated true).

(** ['%s %s %s' % (addr, type, str(address))]. *)
Definition release_command (p : Obj.point W) : string :=
  py_str (Device.addr (Obj.device (Obj.properties p))) ++ " " ++
  Obj.type (Obj.properties p) ++ " " ++
  py_str (Obj.address (Obj.properties p)).

(** [Point.release]. *)
Definition release : M W unit :=
  p <- get_self ;;
  let cmd := release_command p in
  collaborator (CallRelease cmd)
    (Network.release (Device.network (Obj.device (Obj.properties p))) cmd) ;;
  modify_self (Obj.set_simulated false).

(** [Point.ovr]. *)
Definition ovr (value : pyval) : M W unit :=
  write value "presentValue" (PyInt 8) ;;
  modify_self (Obj.set_overridden true).

(** [Point.auto]. *)
Definition auto : M W unit :=
  write (PyStr "null") "presentValue" (PyInt 8) ;;
  modify_self (Obj.set_overridden false).

(** [Point._setitem]. *)
Definition _setitem (value : pyval) : M W unit :=
  p <- get_self ;;
  if str_in "Value" (Obj.type (Obj.properties p)) then
    write value "presentValue" (PyStr "")
  else if str_in "Output" (Obj.type (Obj.properties p)) then
    ovr value
  else
    sim value.

(** [Point._set]. *)
Definition _set (value : pyval) : M W unit :=
  raise (Exception "Must be overridden").
End Methods.
End Point.

(** ** class NumericPoint(Point) *)

Module NumericPoint.
Section Methods.
Context {W : Type} `{World W} {rt : PyRuntime}.

Definition __init__ := @Point.__init__ W _.

(** [NumericPoint.units]. *)
Definition units : M W units_state_t :=
  p <- get_self ;;
  ret (Obj.units_state (Obj.properties p)).

(** [NumericPoint._set]: [isinstance(float(value), float)] holds whenever
    [float(value)] returns, so the [else] branch is never taken. *)
Definition _set (value : pyval) : M W unit :=
  _ <- lift (py_float value) ;;
  Point._setitem value.

(** [NumericPoint.__repr__]:
    ['%s : %.2f %s' % (name, self.value, units_state)]. *)
Definition __repr__ {fmt : PyFormat} : M W string :=
  p <- get_self ;;
  let name := Obj.name (Obj.properties p) in
  res <- Point.value ;;
  p' <- get_self ;;
  let units_state := Obj.units_state (Obj.properties p') in
  txt <- lift (py_format_2f res) ;;
  ret (name ++ " : " ++ txt ++ " " ++ str_units units_state).
End Methods.
End NumericPoint.

(** ** class BooleanPoint(Point) *)

Module BooleanPoint.
Section Methods.
Context {W : Type} `{World W} {rt : PyRuntime}.

Definition __init__ := @Point.__init__ W _.

(** [BooleanPoint.value], which overrides [Point.value]. *)
Definition value : M W pyval :=
  res <- Point.device_read ;;
  t <- now ;;
  modify_self (Obj.append_timestamp t) ;;
  modify_self (Obj.append_value res) ;;
  (if py_eq_str res "inactive" then
     modify_self (Obj.set_key 0) ;;
     modify_self (Obj.set_boolKey false)
   else
     modify_self (Obj.set_key 1) ;;
     modify_self (Obj.set_boolKey true)) ;;
  ret res.

(** [BooleanPoint.boolValue]. *)
Definition boolValue : M W bool :=
  res <- value ;;
  (if py_eq_str res "active" then
     modify_self (Obj.set_key 1) ;;
     modify_self (Obj.set_boolKey true)
   else
     modify_self (Obj.set_key 0) ;;
     modify_self (Obj.set_boolKey false)) ;;
  p <- get_self ;;
  match Obj._boolKey p with
  | Some b => ret b
  | None => raise (AttributeError "_boolKey")
  end.

(** [BooleanPoint.units]. *)
Definition units : M W units_state_t := ret NoUnits.

(** [BooleanPoint.__repr__]: ['%s : %s' % (name, self.boolValue)]. *)
Definition __repr__ : M W string :=
  p <- get_self ;;
  let name := Obj.name (Obj.properties p) in
  b <- boolValue ;;
  ret (name ++ " : " ++ py_str (PyBool b)).
End Methods.
End BooleanPoint.

(** ** class EnumPoint(Point) *)

Module EnumPoint.
Section Methods.
Context {W : Type} `{World W} {rt : PyRuntime}.

Definition __init__ := @Point.__init__ W _.

(** [EnumPoint.enumValue]:
    [self.properties.units_state[int(self.value) - 1]]. *)
Definition enumValue : M W pyval :=
  p <- get_self ;;
  let states := Obj.units_state (Obj.properties p) in
  res <- Point.value ;;
  i <- lift (py_int res) ;;
  lift (py_subscript states (i - 1)).

(** [EnumPoint.units]. *)
Definition units : M W units_state_t := ret NoUnits.

(** [EnumPoint.__repr__]: ['%s : %s' % (name, self.enumValue)]. *)
Definition __repr__ : M W string :=
  p <- get_self ;;
  let name := Obj.name (Obj.properties p) in
  label <- enumValue ;;
  ret (name ++ " : " ++ py_str label).
End Methods.
End EnumPoint.

(** ** A stub collaborator and a small runtime for worked examples *)

Module StubRuntime.
(** Decimal digits of a string, most significant first. *)
Definition digit_of (c : ascii) : option Z :=
  let n := Z.of_N (N_of_ascii c) in
  if (48 <=? n) && (n <=? 57) then Some (n - 48) else None.

Fixpoint digits_value (acc : Z) (s : string) : option Z :=
  match s with
  | EmptyString => Some acc
  | String c rest =>
      match digit_of c with
      | Some d => digits_value (10 * acc + d) rest
      | None => None
      end
  end.

Definition split_sign (s : string) : bool * string :=
  match s with
  | String "-" rest => (true, rest)
  | String "+" rest => (false, rest)
  | _ => (false, s)
  end.

(** A signed run of decimal digits. *)
Definition parse_int (s : string) : option Z :=
  let '(neg, body) := split_sign s in
  match body with
  | EmptyString => None
  | _ => option_map (cond_Zopp neg) (digits_value 0 body)
  end.

Fixpoint split_dot (s : string) : string * option string :=
  match s with
  | EmptyString => (EmptyString, None)
  | String "." rest => (EmptyString, Some rest)
  | String c rest =>
      let '(a, b) := split_dot rest in (String c a, b)
  end.

(** [m / 10^k] rounded to the nearest binary64 number. *)
Definition binary64_of_decimal (neg : bool) (m : Z) (k : nat) : spec_float :=
  match m with
  | Zpos p =>
      SFdiv 53 1024 (S754_finite neg p 0)
        (S754_finite false (Z.to_pos (10 ^ Z.of_nat k)) 0)
  | _ => S754_zero neg
  end.

(** A signed decimal literal [digits], [digits.digits], [digits.] or
    [.digits]. *)
Definition parse_float (s : string) : option spec_float :=
  let '(neg, body) := split_sign s in
  let '(ip, fp) := split_dot body in
  let fp := match fp with Some f => f | None => EmptyString end in
  match (ip ++ fp)%string with
  | EmptyString => None
  | all =>
      option_map (fun m => binary64_of_decimal neg m (String.length fp))
        (digits_value 0 all)
  end.

Fixpoint strip_zeros (rev_digits : list ascii) : list ascii :=
  match rev_digits with
  | "0"%char :: (_ :: _) as rest => strip_zeros rest
  | _ => rev_digits
  end.

Fixpoint pad_zeros (n : nat) (s : string) : string :=
  match n with
  | O => s
  | S n' => pad_zeros n' (String "0" s)
  end.

(** The exact decimal expansion of [m * 2^e]. *)
Definition expansion (m : positive) (e : Z) : string :=
  if 0 <=? e then
    NilZero.string_of_int (Z.to_int (Zpos m * 2 ^ e)) ++ ".0"
  else
    let k := Z.to_nat (- e) in
    let d := NilZero.string_of_int (Z.to_int (Zpos m * 5 ^ (- e))) in
    let d := pad_zeros (S k - String.length d) d in
    let n := (String.length d - k)%nat in
    let frac := string_of_list_ascii
                  (rev (strip_zeros (rev (list_ascii_of_string
                     (substring n k d))))) in
    substring 0 n d ++ "." ++ frac.

Definition print_float (f : spec_float) : string :=
  match f with
  | S754_zero s => if s then "-0.0" else "0.0"
  | S754_infinity s => if s then "-inf" else "inf"
  | S754_nan => "nan"
  | S754_finite s m e => (if s then "-" else "") ++ expansion m e
  end.

(** The runtime of the examples.  It parses plain decimal literals only
    (CPython also takes blanks, underscores and exponents) and prints a
    float by its exact decimal expansion, which is what CPython prints
    when that expansion has at most 15 significant digits and lies
    between 1e-4 and 1e16. *)
Definition runtime : PyRuntime :=
  {| float_of_str := parse_float;
     int_of_str := parse_int;
     repr_float := print_float |}.

(** [n / d] rounded to the nearest integer, ties to even, for [0 <= n] and
    [0 < d]. *)
Definition round_half_even (n d : Z) : Z :=
  let q := n / d in
  match 2 * (n mod d) ?= d with
  | Lt => q
  | Gt => q + 1
  | Eq => if Z.even q then q else q + 1
  end.

(** The hundredths of [m * 2^e], rounded. *)
Definition hundredths (m : positive) (e : Z) : Z :=
  if 0 <=? e then Zpos m * 2 ^ e * 100
  else round_half_even (Zpos m * 100) (2 ^ (- e)).

Definition print_hundredths (n : Z) : string :=
  let cents := NilZero.string_of_int (Z.to_int (n mod 100)) in
  NilZero.string_of_int (Z.to_int (n / 100)) ++ "." ++
  pad_zeros (2 - String.length cents) cents.

(** A float with two decimals, correctly rounded. *)
Definition print_2f (f : spec_float) : string :=
  match f with
  | S754_zero s => if s then "-0.00" else "0.00"
  | S754_infinity s => if s then "-inf" else "inf"
  | S754_nan => "nan"
  | S754_finite s m e =>
      (if s then "-" else "") ++ print_hundredths (hundredths m e)
  end.

Fixpoint join_comma (items : list string) : string :=
  match items with
  | [] => ""
  | [x] => x
  | x :: rest => x ++ ", " ++ join_comma rest
  end.

(** A list as Python prints it; a string item is put between single
    quotes, which is what CPython does when the string has no quote,
    backslash or control character. *)
Definition print_list (items : list pyval) : string :=
  "[" ++
  join_comma
    (map (fun v => match v with
                   | PyStr t => "'" ++ t ++ "'"
                   | PyFloat f => print_float f
                   | PyInt z => NilZero.string_of_int (Z.to_int z)
                   | PyBool b => if b then "True" else "False"
                   | PyNone => "None"
                   end) items) ++
  "]".

Definition format : PyFormat :=
  {| format_2f := print_2f; str_list := print_list |}.
End StubRuntime.


(** ** A small pandas for worked examples *)

Module StubPandas.
(** A series: its index, and its values once a type has been chosen for
    them. *)
Record series : Type := mk_series {
  index : list datetime;
  data : list pyval
}.

Definition is_number (v : pyval) : bool :=
  match v with
  | PyFloat _ | PyInt _ => true
  | _ => false
  end.

Definition is_number_or_none (v : pyval) : bool :=
  match v with
  | PyNone => true
  | _ => is_number v
  end.

Definition is_int (v : pyval) : bool :=
  match v with
  | PyInt _ => true
  | _ => false
  end.

(** In a column of floats, [None] is NaN and an integer is its float. *)
Definition to_float64 (v : pyval) : pyval :=
  match v with
  | PyNone => PyFloat S754_nan
  | PyInt z => PyFloat (binary64_of_Z z)
  | _ => v
  end.

(** The values of a series.  A list of numbers and [None] that holds a
    number and is not all integers becomes a column of floats; any other
    list is kept as it is. *)
Definition coerce (values : list pyval) : list pyval :=
  if forallb is_number_or_none values && existsb is_number values &&
     negb (forallb is_int values)
  then map to_float64 values
  else values.

Definition make (values : list pyval) (index : list datetime)
  : result series :=
  if Nat.eqb (List.length values) (List.length index)
  then Ok (mk_series index (coerce values))
  else Raise (ValueError "Length of values does not match length of index").

(** The pandas of the examples; it is meant for lists of floats, 64-bit
    integers, booleans, strings and [None]. *)
Definition pandas : Pandas :=
  {| Series := series; pd_Series := make |}.
End StubPandas.

(** ** Every method as one step *)

(** The methods a caller can invoke on a point.  [chart] only plots the
    result of [history] and [__repr__] only prints the result of [value],
    [boolValue] or [enumValue]. *)
Inductive method : Type :=
| Point_value
| Point_units
| Point_lastValue
| Point_history
| Point_getitem (key : pyval)
| Point_write (value : pyval) (prop : string) (priority : pyval)
| Point_default (value : pyval)
| Point_sim (value : pyval)
| Point_release
| Point_ovr (value : pyval)
| Point_auto
| Point_setitem (value : pyval)
| Point_set (value : pyval)
| NumericPoint_units
| NumericPoint_set (value : pyval)
| BooleanPoint_value
| BooleanPoint_boolValue
| BooleanPoint_units
| EnumPoint_enumValue
| EnumPoint_units.

Section Steps.
Context {W : Type} `{World W} {rt : PyRuntime} {pd : Pandas}.

(** The state a call leaves behind, whether it returned or raised. *)
Definition invoke (m : method) (s : state W) : state W :=
  match m with
  | Point_value => snd (Point.value s)
  | Point_units => snd (Point.units s)
  | Point_lastValue => snd (Point.lastValue s)
  | Point_history => snd (Point.history s)
  | Point_getitem key => snd (Point.__getitem__ key s)
  | Point_write value prop priority => snd (Point.write value prop priority s)
  | Point_default value => snd (Point.default value s)
  | Point_sim value => snd (Point.sim value s)
  | Point_release => snd (Point.release s)
  | Point_ovr value => snd (Point.ovr value s)
  | Point_auto => snd (Point.auto s)
  | Point_setitem value => snd (Point._setitem value s)
  | Point_set value => snd (Point._set value s)
  | NumericPoint_units => snd (NumericPoint.units s)
  | NumericPoint_set value => snd (NumericPoint._set value s)
  | BooleanPoint_value => snd (BooleanPoint.value s)
  | BooleanPoint_boolValue => snd (BooleanPoint.boolValue s)
  | BooleanPoint_units => snd (BooleanPoint.units s)
  | EnumPoint_enumValue => snd (EnumPoint.enumValue s)
  | EnumPoint_units => snd (EnumPoint.units s)
  end.

(** A sequence of calls, first call first. *)
Definition run (ms : list method) (s : state W) : state W :=
  fold_left (fun s m => invoke m s) ms s.

(** The state right after construction. *)
Definition constructed (device : Device.t W) (pointType : string)
    (pointAddress : pyval) (pointName : string) (description : pyval)
    (presentValue : pyval) (units_state : units_state_t) (w : W)
  : state W :=
  let '(p, w') :=
    Point.__init__ device pointType pointAddress pointName description
      presentValue units_state w in
  mk_state p w' [].

(** *** Notions used in the statements *)

Definition timestamps (s : state W) : list datetime :=
  Obj.timestamp (Obj._history (self s)).

Definition values (s : state W) : list pyval :=
  Obj.value (Obj._history (self s)).

Definition simulated (s : state W) : bool :=
  Obj.simulated (Obj.properties (self s)).

Definition overridden (s : state W) : bool :=
  Obj.overridden (Obj.properties (self s)).

Definition network_of (s : state W) : Network.t W :=
  Device.network (Obj.device (Obj.properties (self s))).

(** What the device answers to the read a point makes in state [s]. *)
Definition the_read (s : state W) : result pyval * W :=
  Device.read (Obj.device (Obj.properties (self s)))
    (Obj.name (Obj.properties (self s))) (world s).

(** The state after a reading [res] that left the collaborator in [w]:
    the clock is read, and time stamp and value are appended. *)
Definition after_read (s : state W) (res : pyval) (w : W) : state W :=
  let '(t, w') := datetime_now w in
  mk_state (Obj.append_value res (Obj.append_timestamp t (self s))) w'
    (calls s ++ [CallRead (Obj.name (Obj.properties (self s)))])%list.

(** The state after a call [c] that left the collaborator in [w]. *)
Definition after_call (s : state W) (c : call) (w : W) : state W :=
  mk_state (self s) w (calls s ++ [c])%list.

Definition with_self (f : Obj.point W -> Obj.point W) (s : state W)
  : state W :=
  mk_state (f (self s)) (world s) (calls s).

(** What [BooleanPoint.value] leaves in [_key] and [_boolKey]. *)
Definition cache_of_value (res : pyval) (p : Obj.point W) : Obj.point W :=
  if py_eq_str res "inactive"
  then Obj.set_boolKey false (Obj.set_key 0 p)
  else Obj.set_boolKey true (Obj.set_key 1 p).

(** What [BooleanPoint.boolValue] leaves in [_key] and [_boolKey]. *)
Definition cache_of_boolValue (res : pyval) (p : Obj.point W)
  : Obj.point W :=
  if py_eq_str res "active"
  then Obj.set_boolKey true (Obj.set_key 1 p)
  else Obj.set_boolKey false (Obj.set_key 0 p).

(** A given priority passes the test of [write]: [float(p)] returns a
    number between 1 and 16. *)
Definition accepted (priority : pyval) : bool :=
  match py_float priority with
  | Ok f => between_1_and_16 f
  | Raise _ => false
  end.

(** The exception [write] raises for a given priority that does not pass:
    the one of [float] if the conversion fails, else its own. *)
Definition rejection (priority : pyval) : exn :=
  match py_float priority with
  | Ok _ => Point.priority_error
  | Raise e => e
  end.

(** The suffix [write] puts on the command for an accepted priority. *)
Definition priority_suffix (priority : pyval) : pyval :=
  PyStr ("- " ++ py_str priority).

(** The outcome of a command that reaches an entry point [entry] of the
    network object: the call is recorded, the collaborator moves on, and
    its failure, if any, is the caller's. *)
Definition sent (entry : string -> W -> result pyval * W) (c : call)
    (cmd : string) (s : state W) : result unit * state W :=
  (match fst (entry cmd (world s)) with
   | Ok _ => Ok tt
   | Raise e => Raise e
   end,
   after_call s c (snd (entry cmd (world s)))).

Definition sent_write (cmd : string) (s : state W) : result unit * state W :=
  sent (Network.write (network_of s)) (CallWrite cmd) cmd s.

Definition sent_sim (cmd : string) (s : state W) : result unit * state W :=
  sent (Network.sim (network_of s)) (CallSim cmd) cmd s.

Definition sent_release (cmd : string) (s : state W)
  : result unit * state W :=
  sent (Network.release (network_of s)) (CallRelease cmd) cmd s.

(** From [s] to [s'] the history has only been appended to, and by as many
    time stamps as values. *)
Definition grows (s s' : state W) : Prop :=
  exists ts vs,
    timestamps s' = (timestamps s ++ ts)%list /\
    values s' = (values s ++ vs)%list /\
    List.length ts = List.length vs.

(** The command [ovr] and [auto] send: a write of [presentValue] at
    priority 8. *)
Definition override_command (s : state W) (value : pyval) : string :=
  Point.write_command (self s) value "presentValue" (PyStr "- 8").
End Steps.

(** ** A stub device *)

Module StubDevice.
(** The collaborator state of the examples is a clock that advances by one
    each time it is read. *)
Definition clock : World Z :=
  {| datetime_now := fun w => (w, w + 1) |}.

(** A network object that accepts every command. *)
Definition accepting : Network.t Z :=
  Network.mk (fun _ w => (Ok PyNone, w)) (fun _ w => (Ok PyNone, w))
    (fun _ w => (Ok PyNone, w)).

(** A network object that fails on every command. *)
Definition refusing (e : exn) : Network.t Z :=
  Network.mk (fun _ w => (Raise e, w)) (fun _ w => (Raise e, w))
    (fun _ w => (Raise e, w)).

(** A device at address ["2:5"] whose every read gives [reading]. *)
Definition device (reading : pyval) (net : Network.t Z) : Device.t Z :=
  Device.mk (PyStr "2:5") (fun _ w => (Ok reading, w)) net.

(** A point of the given type on such a device, freshly constructed at
    time 0 with no initial value. *)
Definition fresh (pointType : string) (units_state : units_state_t)
    (reading : pyval) (net : Network.t Z) : state Z :=
  constructed (H := clock) (device reading net) pointType (PyInt 1) "pt"
    PyNone PyNone units_state 0.

(** 2.5 and 21.5 as binary64 numbers. *)
Definition f2_5 : spec_float := binary_normalize 53 1024 5 (-1) false.
Definition f21_5 : spec_float := binary_normalize 53 1024 43 (-1) false.

(** A numeric input whose device answers 21.5. *)
Definition numeric_input (net : Network.t Z) : state Z :=
  fresh "analogInput" (UnitLabel "degC") (PyFloat f21_5) net.

(** A numeric output and a numeric value object. *)
Definition numeric_output (net : Network.t Z) : state Z :=
  fresh "analogOutput" (UnitLabel "%") (PyFloat f21_5) net.

Definition numeric_value (net : Network.t Z) : state Z :=
  fresh "analogValue" (UnitLabel "degC") (PyFloat f21_5) net.

(** A binary input whose device answers [reading]. *)
Definition binary_input (reading : pyval) : state Z :=
  fresh "binaryInput" NoUnits reading accepting.

(** A three-state input whose device answers [reading]. *)
Definition three_states : list pyval := [PyStr "Off"; PyStr "On"; PyStr "Auto"].

Definition multistate_input (reading : pyval) : state Z :=
  fresh "multiStateInput" (StateTable three_states) reading accepting.

(** A numeric input that has been overridden with 10. *)
Definition overridden_input : state Z :=
  snd (Point.ovr (rt := StubRuntime.runtime) (PyInt 10) (numeric_input accepting)).

(** The failure of the examples. *)
Definition timeout : exn := CollaboratorError "timeout".

(** A numeric input after one read of 21.5. *)
Definition read_once : state Z :=
  snd (Point.value (H := clock) (numeric_input accepting)).

(** A device whose every read fails with [e]. *)
Definition silent (e : exn) : Device.t Z :=
  Device.mk (PyStr "2:5") (fun _ w => (Raise e, w)) accepting.

(** A three-state input on a device that does not answer. *)
Definition unreachable_input : state Z :=
  constructed (H := clock) (silent timeout) "multiStateInput" (PyInt 1) "pt"
    PyNone PyNone (StateTable three_states) 0.
End StubDevice.

(** ** Kinds of methods and of steps *)

Section Kinds.
Context {W : Type} `{World W}.

Definition is_read (c : call) : bool :=
  match c with
  | CallRead _ => true
  | _ => false
  end.

(** How many of the calls were reads. *)
Definition count_reads (l : list call) : nat := List.length (filter is_read l).

(** The accessors, which read the device. *)
Definition is_accessor (m : method) : bool :=
  match m with
  | Point_value | BooleanPoint_value | BooleanPoint_boolValue
  | EnumPoint_enumValue => true
  | _ => false
  end.

(** The methods that end by assigning a flag. *)
Definition is_control (m : method) : bool :=
  match m with
  | Point_sim _ | Point_release | Point_ovr _ | Point_auto
  | Point_setitem _ | NumericPoint_set _ => true
  | _ => false
  end.

(** No method of the sequence is an accessor: no [value] read among
    them. *)
Definition no_read_among (ms : list method) : bool :=
  forallb (fun m => negb (is_accessor m)) ms.

(** [_key] and [_boolKey] are both absent, or both present and saying the
    same. *)
Definition cache_agrees (p : Obj.point W) : Prop :=
  match Obj._key p, Obj._boolKey p with
  | None, None => True
  | Some k, Some b => k = (if b then 1 else 0)
  | _, _ => False
  end.

(** Two property records name the same point of the same device. *)
Definition same_identity (p q : Obj.properties_t W) : Prop :=
  Obj.device q = Obj.device p /\ Obj.name q = Obj.name p /\
  Obj.type q = Obj.type p /\ Obj.address q = Obj.address p /\
  Obj.description q = Obj.description p /\
  Obj.units_state q = Obj.units_state p.

(** A method raised [e] at state [s] and left the point as it was. *)
Definition raises_untouched {A} (m : M W A) (s : state W) (e : exn) : Prop :=
  fst (m s) = Raise e /\ self (snd (m s)) = self s.

(** A step that leaves the point untouched and makes at most one call,
    which is not a read. *)
Inductive quiet_step (s : state W) : state W -> Prop :=
| quiet_same : quiet_step s s
| quiet_call (c : call) (w : W) :
    is_read c = false -> quiet_step s (after_call s c w).

Definition is_flag_setter (f : Obj.point W -> Obj.point W) : Prop :=
  exists b, f = Obj.set_simulated b \/ f = Obj.set_overridden b.

(** A step of a control method: quiet, or one call followed by the
    assignment of one flag. *)
Inductive control_step (s : state W) : state W -> Prop :=
| control_quiet (s' : state W) : quiet_step s s' -> control_step s s'
| control_flag (f : Obj.point W -> Obj.point W) (c : call) (w : W) :
    is_read c = false -> is_flag_setter f ->
    control_step s (with_self f (after_call s c w)).

Definition is_cache_setter (res : pyval) (f : Obj.point W -> Obj.point W)
  : Prop :=
  f = cache_of_value res \/
  f = (fun p => cache_of_boolValue res (cache_of_value res p)).

(** A step of an accessor: a read that failed, or a reading appended,
    possibly followed by the assignment of the cache. *)
Inductive read_step (s : state W) : state W -> Prop :=
| read_failed (w : W) :
    read_step s
      (after_call s (CallRead (Obj.name (Obj.properties (self s)))) w)
| read_plain (res : pyval) (w : W) : read_step s (after_read s res w)
| read_cached (res : pyval) (w : W) (f : Obj.point W -> Obj.point W) :
    is_cache_setter res f ->
    read_step s (with_self f (after_read s res w)).
End Kinds.

(** * Properties *)

(** ** Reading: [value], [boolValue], [enumValue] *)

Section Reading.
Context {W : Type} `{World W} {rt : PyRuntime}.

Lemma device_read_run (s : state W) :
  Point.device_read s =
  (fst (the_read s),
   after_call s (CallRead (Obj.name (Obj.properties (self s))))
     (snd (the_read s))).
Proof.
  unfold Point.device_read, the_read, bind, get_self, collaborator. simpl.
  destruct (Device.read _ _ _). reflexivity.
Qed.

Lemma value_ok (s : state W) res w :
  the_read s = (Ok res, w) ->
  Point.value s = (Ok res, after_read s res w).
Proof.
  intros E. unfold Point.value, bind at 1. rewrite device_read_run, E. simpl.
  unfold bind, now, modify_self, ret, after_read. simpl.
  destruct (datetime_now w). reflexivity.
Qed.

Lemma value_raise (s : state W) e w :
  the_read s = (Raise e, w) ->
  Point.value s =
  (Raise e,
   after_call s (CallRead (Obj.name (Obj.properties (self s)))) w).
Proof.
  intros E. unfold Point.value, bind at 1. rewrite device_read_run, E.
  reflexivity.
Qed.

Lemma boolean_value_ok (s : state W) res w :
  the_read s = (Ok res, w) ->
  BooleanPoint.value s =
  (Ok res, with_self (cache_of_value res) (after_read s res w)).
Proof.
  intros E. unfold BooleanPoint.value, bind at 1.
  rewrite device_read_run, E. simpl.
  unfold bind, now, modify_self, ret, after_read, with_self, cache_of_value.
  simpl. destruct (datetime_now w). simpl.
  destruct (py_eq_str res "inactive"); reflexivity.
Qed.

Lemma boolean_value_raise (s : state W) e w :
  the_read s = (Raise e, w) ->
  BooleanPoint.value s =
  (Raise e,
   after_call s (CallRead (Obj.name (Obj.properties (self s)))) w).
Proof.
  intros E. unfold BooleanPoint.value, bind at 1.
  rewrite device_read_run, E. reflexivity.
Qed.

Lemma boolValue_ok (s : state W) res w :
  the_read s = (Ok res, w) ->
  BooleanPoint.boolValue s =
  (Ok (py_eq_str res "active"),
   with_self (cache_of_boolValue res)
     (with_self (cache_of_value res) (after_read s res w))).
Proof.
  intros E. unfold BooleanPoint.boolValue, bind at 1.
  rewrite (boolean_value_ok _ _ _ E).
  unfold bind, modify_self, get_self, ret, with_self, cache_of_boolValue.
  simpl. destruct (py_eq_str res "active"); reflexivity.
Qed.

Lemma boolValue_raise (s : state W) e w :
  the_read s = (Raise e, w) ->
  BooleanPoint.boolValue s =
  (Raise e,
   after_call s (CallRead (Obj.name (Obj.properties (self s)))) w).
Proof.
  intros E. unfold BooleanPoint.boolValue, bind at 1.
  rewrite (boolean_value_raise _ _ _ E). reflexivity.
Qed.

Lemma after_read_values (s : state W) res w :
  values (after_read s res w) = (values s ++ [res])%list.
Proof. unfold after_read, values. destruct (datetime_now w). reflexivity. Qed.

Lemma after_read_timestamps (s : state W) res w :
  timestamps (after_read s res w) =
  (timestamps s ++ [fst (datetime_now w)])%list.
Proof.
  unfold after_read, timestamps. destruct (datetime_now w). reflexivity.
Qed.

Lemma after_read_properties (s : state W) res w :
  Obj.properties (self (after_read s res w)) = Obj.properties (self s).
Proof. unfold after_read. destruct (datetime_now w). reflexivity. Qed.

Lemma after_read_calls (s : state W) res w :
  calls (after_read s res w) =
  (calls s ++ [CallRead (Obj.name (Obj.properties (self s)))])%list.
Proof. unfold after_read. destruct (datetime_now w). reflexivity. Qed.

Lemma cache_of_value_history res (p : Obj.point W) :
  Obj._history (cache_of_value res p) = Obj._history p.
Proof. unfold cache_of_value. destruct (py_eq_str res "inactive"); auto. Qed.

Lemma cache_of_value_properties res (p : Obj.point W) :
  Obj.properties (cache_of_value res p) = Obj.properties p.
Proof. unfold cache_of_value. destruct (py_eq_str res "inactive"); auto. Qed.

Lemma cache_of_boolValue_history res (p : Obj.point W) :
  Obj._history (cache_of_boolValue res p) = Obj._history p.
Proof. unfold cache_of_boolValue. destruct (py_eq_str res "active"); auto. Qed.

Lemma cache_of_boolValue_properties res (p : Obj.point W) :
  Obj.properties (cache_of_boolValue res p) = Obj.properties p.
Proof. unfold cache_of_boolValue. destruct (py_eq_str res "active"); auto. Qed.

(** C3.  When the device's read returns a raw value [res], the accessor
    [value] returns that same [res], appends exactly one time stamp and
    exactly one value to the history, and the appended value is [res];
    so both history lists grow by one.  This holds for [Point.value] and
    for the overriding [BooleanPoint.value]. *)
Theorem value_appends_the_reading (s : state W) (res : pyval) (w : W) :
  the_read s = (Ok res, w) ->
  (fst (Point.value s) = Ok res /\
   values (snd (Point.value s)) = (values s ++ [res])%list /\
   timestamps (snd (Point.value s)) =
     (timestamps s ++ [fst (datetime_now w)])%list /\
   List.length (values (snd (Point.value s))) = S (List.length (values s)) /\
   List.length (timestamps (snd (Point.value s))) =
     S (List.length (timestamps s)))
  /\
  (fst (BooleanPoint.value s) = Ok res /\
   values (snd (BooleanPoint.value s)) = (values s ++ [res])%list /\
   timestamps (snd (BooleanPoint.value s)) =
     (timestamps s ++ [fst (datetime_now w)])%list /\
   List.length (values (snd (BooleanPoint.value s))) =
     S (List.length (values s)) /\
   List.length (timestamps (snd (BooleanPoint.value s))) =
     S (List.length (timestamps s))).
Proof.
  intros E. rewrite (value_ok _ _ _ E), (boolean_value_ok _ _ _ E). simpl.
  assert (V : values (with_self (cache_of_value res) (after_read s res w)) =
              values (after_read s res w)).
  { unfold values, with_self. simpl. now rewrite cache_of_value_history. }
  assert (T : timestamps (with_self (cache_of_value res) (after_read s res w)) =
              timestamps (after_read s res w)).
  { unfold timestamps, with_self. simpl. now rewrite cache_of_value_history. }
  rewrite V, T, after_read_values, after_read_timestamps.
  rewrite !length_app. simpl.
  repeat split; auto; apply Nat.add_1_r.
Qed.
End Reading.

Section BooleanReading.
Context {W : Type} `{World W}.

Lemma py_eq_str_true (v : pyval) (lit : string) :
  py_eq_str v lit = true <-> v = PyStr lit.
Proof.
  destruct v; simpl; try (split; [discriminate | intros E; inversion E]).
  rewrite String.eqb_eq. split; [congruence | intros E; now inversion E].
Qed.

(** What [BooleanPoint.value] caches, for any raw value: true unless the
    raw value is ["inactive"]. *)
Lemma boolean_value_cache (s : state W) (res : pyval) (w : W) :
  the_read s = (Ok res, w) ->
  Obj._boolKey (self (snd (BooleanPoint.value s))) =
    Some (negb (py_eq_str res "inactive")) /\
  Obj._key (self (snd (BooleanPoint.value s))) =
    Some (if py_eq_str res "inactive" then 0 else 1).
Proof.
  intros E. rewrite (boolean_value_ok _ _ _ E). simpl.
  unfold cache_of_value. destruct (py_eq_str res "inactive"); auto.
Qed.

(** C6.  When the device's read returns a raw value [res], [boolValue]
    makes exactly that one read through the [value] accessor (one call to
    the device, one entry appended to the history) and returns true if and
    only if [res] is the string ["active"]; for every other raw value it
    returns false.  The cached boolean is the returned one. *)
Theorem boolValue_true_iff_active (s : state W) (res : pyval) (w : W) :
  the_read s = (Ok res, w) ->
  fst (BooleanPoint.boolValue s) = Ok (py_eq_str res "active") /\
  (fst (BooleanPoint.boolValue s) = Ok true <-> res = PyStr "active") /\
  (res <> PyStr "active" -> fst (BooleanPoint.boolValue s) = Ok false) /\
  calls (snd (BooleanPoint.boolValue s)) =
    (calls s ++ [CallRead (Obj.name (Obj.properties (self s)))])%list /\
  values (snd (BooleanPoint.boolValue s)) = (values s ++ [res])%list /\
  Obj._boolKey (self (snd (BooleanPoint.boolValue s))) =
    Some (py_eq_str res "active").
Proof.
  intros E. rewrite (boolValue_ok _ _ _ E). simpl.
  split; [reflexivity|]. split.
  { rewrite <- py_eq_str_true. split; congruence. }
  split.
  { intros N. destruct (py_eq_str res "active") eqn:A; [|reflexivity].
    apply py_eq_str_true in A. contradiction. }
  split.
  { apply after_read_calls. }
  split.
  { unfold values. simpl.
    rewrite cache_of_boolValue_history, cache_of_value_history.
    apply after_read_values. }
  unfold cache_of_boolValue. destruct (py_eq_str res "active"); reflexivity.
Qed.
End BooleanReading.

(** C6, on a stub device: a reading of ["active"] gives true. *)
Lemma boolValue_true_iff_active_witness :
  the_read (StubDevice.binary_input (PyStr "active")) =
    (Ok (PyStr "active"), 1) /\
  fst (BooleanPoint.boolValue (H := StubDevice.clock)
         (StubDevice.binary_input (PyStr "active"))) = Ok true /\
  values (snd (BooleanPoint.boolValue (H := StubDevice.clock)
                 (StubDevice.binary_input (PyStr "active")))) =
    [PyNone; PyStr "active"].
Proof.
  set (s := StubDevice.binary_input (PyStr "active")).
  assert (E : the_read s = (Ok (PyStr "active"), 1)) by reflexivity.
  split; [exact E|].
  destruct (boolValue_true_iff_active (H := StubDevice.clock) s _ _ E)
    as (R & _ & _ & _ & V & _).
  split; [exact R | exact V].
Defined.

(** C3, on a stub device that answers 21.5 to every read: [value] returns
    21.5 and the history holds the seed and that one reading. *)
Lemma value_appends_the_reading_witness :
  the_read (StubDevice.numeric_input StubDevice.accepting) =
    (Ok (PyFloat StubDevice.f21_5), 1) /\
  fst (Point.value (H := StubDevice.clock)
         (StubDevice.numeric_input StubDevice.accepting)) =
    Ok (PyFloat StubDevice.f21_5) /\
  values (snd (Point.value (H := StubDevice.clock)
                 (StubDevice.numeric_input StubDevice.accepting))) =
    [PyNone; PyFloat StubDevice.f21_5] /\
  List.length
    (timestamps (snd (BooleanPoint.value (H := StubDevice.clock)
                        (StubDevice.numeric_input StubDevice.accepting)))) =
    2%nat.
Proof.
  set (s := StubDevice.numeric_input StubDevice.accepting).
  assert (E : the_read s = (Ok (PyFloat StubDevice.f21_5), 1)) by reflexivity.
  split; [exact E|].
  destruct (value_appends_the_reading (H := StubDevice.clock) s _ _ E)
    as ((R & V & _) & (_ & _ & _ & _ & L)).
  split; [exact R|]. split; [exact V | exact L].
Defined.

(** C5.  On a device whose read answers ["unknown"], [BooleanPoint.value]
    caches true, although the raw value is not ["active"]; [boolValue] on
    the same reading caches and returns false. *)
Theorem boolean_value_caches_true_for_unknown :
  fst (BooleanPoint.value (H := StubDevice.clock)
         (StubDevice.binary_input (PyStr "unknown"))) = Ok (PyStr "unknown") /\
  Obj._boolKey
    (self (snd (BooleanPoint.value (H := StubDevice.clock)
                  (StubDevice.binary_input (PyStr "unknown"))))) = Some true /\
  py_eq_str (PyStr "unknown") "active" = false /\
  fst (BooleanPoint.boolValue (H := StubDevice.clock)
         (StubDevice.binary_input (PyStr "unknown"))) = Ok false /\
  Obj._boolKey
    (self (snd (BooleanPoint.boolValue (H := StubDevice.clock)
                  (StubDevice.binary_input (PyStr "unknown"))))) = Some false.
Proof. repeat split. Qed.

(** ** Python indexing *)

Lemma py_index_nonneg {A} (l : list A) (j : Z) :
  0 <= j < Z.of_nat (List.length l) ->
  exists x, nth_error l (Z.to_nat j) = Some x /\ py_index l j = Ok x.
Proof.
  intros [Lo Hi]. unfold py_index.
  rewrite (proj2 (Z.ltb_ge j 0)) by lia. cbv iota.
  rewrite (proj2 (Z.ltb_ge j 0)) by lia.
  rewrite (proj2 (Z.leb_gt _ j)) by lia. simpl.
  destruct (nth_error l (Z.to_nat j)) as [x|] eqn:E.
  - exists x. auto.
  - apply nth_error_None in E. lia.
Qed.

Lemma py_index_above {A} (l : list A) (j : Z) :
  Z.of_nat (List.length l) <= j ->
  py_index l j = Raise (IndexError "index out of range").
Proof.
  intros Hi. unfold py_index.
  rewrite (proj2 (Z.ltb_ge j 0)) by lia. cbv iota.
  rewrite (proj2 (Z.leb_le _ j)) by lia.
  rewrite orb_true_r. reflexivity.
Qed.

(** A negative index down to [- len(l)] is not an error: it counts from the
    end. *)
Lemma py_index_negative {A} (l : list A) (j : Z) :
  - Z.of_nat (List.length l) <= j < 0 ->
  py_index l j = py_index l (j + Z.of_nat (List.length l)).
Proof.
  intros [Lo Hi]. unfold py_index.
  assert (N : (j + Z.of_nat (List.length l) <? 0) = false)
    by (apply Z.ltb_ge; lia).
  rewrite (proj2 (Z.ltb_lt j 0)) by lia. cbv iota.
  rewrite !N. reflexivity.
Qed.

Lemma py_index_below {A} (l : list A) (j : Z) :
  j < - Z.of_nat (List.length l) ->
  py_index l j = Raise (IndexError "index out of range").
Proof.
  intros Lo. unfold py_index.
  rewrite (proj2 (Z.ltb_lt j 0)) by lia. cbv iota.
  rewrite (proj2 (Z.ltb_lt (j + Z.of_nat (List.length l)) 0)) by lia.
  reflexivity.
Qed.

Section EnumReading.
Context {W : Type} `{World W} {rt : PyRuntime}.

Lemma enumValue_ok (s : state W) (res : pyval) (w : W) :
  the_read s = (Ok res, w) ->
  EnumPoint.enumValue s =
  (match py_int res with
   | Ok i => py_subscript (Obj.units_state (Obj.properties (self s))) (i - 1)
   | Raise e => Raise e
   end,
   after_read s res w).
Proof.
  intros E. unfold EnumPoint.enumValue, bind at 1, get_self at 1.
  unfold bind at 1. rewrite (value_ok _ _ _ E).
  unfold bind, lift. destruct (py_int res); reflexivity.
Qed.

(** The part of C4 that holds: with a state table [states] and a raw index
    [i] read from the device, [enumValue] returns [states[i-1]] when
    [1 <= i <= len(states)] and raises [IndexError] when [i > len(states)].
    For [i = 0] and a table that is not empty it returns the last state. *)
Lemma enumValue_by_index (s : state W) (res : pyval) (w : W)
    (states : list pyval) (i : Z) :
  the_read s = (Ok res, w) ->
  py_int res = Ok i ->
  Obj.units_state (Obj.properties (self s)) = StateTable states ->
  (1 <= i <= Z.of_nat (List.length states) ->
   exists label, nth_error states (Z.to_nat (i - 1)) = Some label /\
                 fst (EnumPoint.enumValue s) = Ok label) /\
  (Z.of_nat (List.length states) < i ->
   fst (EnumPoint.enumValue s) = Raise (IndexError "index out of range")) /\
  (i = 0 -> states <> [] ->
   fst (EnumPoint.enumValue s) = Ok (last states PyNone)).
Proof.
  intros E I U. rewrite (enumValue_ok _ _ _ E), I, U. simpl.
  split; [|split].
  - intros R. apply py_index_nonneg. lia.
  - intros R. apply py_index_above. lia.
  - intros -> N. simpl.
    assert (L : (0 < List.length states)%nat).
    { destruct states; [contradiction | simpl; lia]. }
    rewrite py_index_negative by lia.
    destruct (py_index_nonneg states (-1 + Z.of_nat (List.length states)))
      as (x & Nth & ->); [lia|].
    f_equal.
    assert (Z.to_nat (-1 + Z.of_nat (List.length states)) =
            (List.length states - 1)%nat) as Eq by lia.
    rewrite Eq in Nth. clear Eq.
    destruct (exists_last N) as (front & y & ->).
    rewrite last_last.
    rewrite length_app in Nth. simpl in Nth.
    rewrite nth_error_app2 in Nth by lia.
    replace (List.length front + 1 - 1 - List.length front)%nat with 0%nat
      in Nth by lia.
    simpl in Nth. congruence.
Qed.
End EnumReading.

(** C4.  With the state table [Off, On, Auto] and a device whose read
    answers index 0, [enumValue] does not fail: it returns the last label,
    ["Auto"].  (An index of 4 does raise [IndexError], and index 2 gives
    ["On"].) *)
Theorem enumValue_index_zero_returns_last_state :
  fst (EnumPoint.enumValue (H := StubDevice.clock) (rt := StubRuntime.runtime)
         (StubDevice.multistate_input (PyInt 0))) = Ok (PyStr "Auto") /\
  fst (EnumPoint.enumValue (H := StubDevice.clock) (rt := StubRuntime.runtime)
         (StubDevice.multistate_input (PyInt 4))) =
    Raise (IndexError "index out of range") /\
  fst (EnumPoint.enumValue (H := StubDevice.clock) (rt := StubRuntime.runtime)
         (StubDevice.multistate_input (PyInt 2))) = Ok (PyStr "On").
Proof. repeat split. Qed.

(** ** Integers as binary64 numbers *)

Section Binary64.

Lemma shr_exponent (mrs : shr_record) (e n : Z) : e <= snd (shr mrs e n).
Proof. destruct n; simpl; lia. Qed.

Lemma shr_fexp_exponent (m e : Z) (l : location) :
  e <= snd (shr_fexp 53 1024 m e l).
Proof. unfold shr_fexp. apply shr_exponent. Qed.

(** Rounding keeps the sign and never lowers the exponent. *)
Lemma binary_round_aux_shape (sx : bool) (mx ex : Z) (lx : location) :
  match binary_round_aux 53 1024 sx mx ex lx with
  | S754_finite s _ e => s = sx /\ ex <= e
  | S754_zero s => s = sx
  | S754_infinity s => s = sx
  | S754_nan => True
  end.
Proof.
  unfold binary_round_aux.
  pose proof (shr_fexp_exponent mx ex lx) as E1.
  destruct (shr_fexp 53 1024 mx ex lx) as [mrs' e'].
  pose proof (shr_fexp_exponent
                (round_nearest_even (shr_m mrs') (loc_of_shr_record mrs'))
                e' loc_Exact) as E2.
  destruct (shr_fexp 53 1024 _ e' loc_Exact) as [mrs'' e''].
  simpl in E1, E2.
  destruct (shr_m mrs''); auto.
  destruct (e'' <=? 1024 - 53); auto. split; [reflexivity | lia].
Qed.

Lemma shl_align_exponent (mx : positive) (ex ex' : Z) :
  snd (shl_align mx ex ex') = Z.min ex ex'.
Proof. unfold shl_align. destruct (ex' - ex) eqn:D; simpl; lia. Qed.

Lemma binary_round_shape (sx : bool) (m : positive) :
  match binary_round 53 1024 sx m 0 with
  | S754_finite s _ e => s = sx /\ Z.min 0 (Zpos (digits2_pos m) - 53) <= e
  | S754_zero s => s = sx
  | S754_infinity s => s = sx
  | S754_nan => True
  end.
Proof.
  unfold binary_round.
  destruct (shl_align m 0 (fexp 53 1024 (Zpos (digits2_pos m) + 0)))
    as [mz ez] eqn:A.
  assert (Z.min 0 (Zpos (digits2_pos m) - 53) <= ez) as Ez.
  { change ez with (snd (mz, ez)). rewrite <- A, shl_align_exponent.
    unfold fexp, emin. lia. }
  pose proof (binary_round_aux_shape sx (Zpos mz) ez loc_Exact) as S.
  destruct (binary_round_aux 53 1024 sx (Zpos mz) ez loc_Exact); auto.
  destruct S. split; [assumption | lia].
Qed.

Lemma digits2_pos_ge_6 (m : positive) :
  32 <= Zpos m -> 6 <= Zpos (digits2_pos m).
Proof.
  intros L.
  destruct m as [m|m|]; [| |lia];
    (destruct m as [m|m|]; [| |lia]);
    (destruct m as [m|m|]; [| |lia]);
    (destruct m as [m|m|]; [| |lia]);
    (destruct m as [m|m|]; [| |lia]);
    simpl digits2_pos; lia.
Qed.

Lemma negative_not_between (z : positive) :
  between_1_and_16 (binary64_of_Z (Zneg z)) = false.
Proof.
  unfold between_1_and_16, binary64_of_Z, binary_normalize.
  pose proof (binary_round_shape true z) as S.
  destruct (binary_round 53 1024 true z 0) as [s|s| |s m e]; try reflexivity.
  - subst. reflexivity.
  - destruct S as [-> _]. reflexivity.
Qed.

Lemma large_not_between (z : positive) :
  32 <= Zpos z -> between_1_and_16 (binary64_of_Z (Zpos z)) = false.
Proof.
  intros L. apply digits2_pos_ge_6 in L.
  unfold between_1_and_16.
  change (binary64_of_Z 1) with (S754_finite false 4503599627370496 (-52)).
  change (binary64_of_Z 16) with (S754_finite false 4503599627370496 (-48)).
  unfold binary64_of_Z, binary_normalize.
  pose proof (binary_round_shape false z) as S.
  destruct (binary_round 53 1024 false z 0) as [s|s| |s m e].
  - reflexivity.
  - subst. reflexivity.
  - reflexivity.
  - destruct S as [-> E]. apply andb_false_iff. right.
    unfold float_le, SFleb, SFcompare.
    assert (C : IntDef.Z.compare e (-48) = Gt)
      by (apply Z.compare_gt_iff; lia).
    rewrite C. reflexivity.
Qed.

(** For an integer, being between 1 and 16 as a float is being between 1
    and 16. *)
Lemma integer_between (z : Z) :
  between_1_and_16 (binary64_of_Z z) = true <-> 1 <= z <= 16.
Proof.
  split.
  - intros B. destruct z as [|p|p].
    + discriminate B.
    + destruct (Z.le_gt_cases 32 (Zpos p)) as [L|L].
      * rewrite large_not_between in B by assumption. discriminate.
      * destruct (Z.le_gt_cases (Zpos p) 16) as [|G]; [lia|]. exfalso.
        assert (In (Zpos p) [17;18;19;20;21;22;23;24;25;26;27;28;29;30;31])
          as I by (simpl; lia).
        simpl in I.
        repeat (destruct I as [I|I];
                [rewrite <- I in B; vm_compute in B; discriminate|]).
        contradiction.
    + rewrite negative_not_between in B. discriminate.
  - intros R.
    assert (In z [1;2;3;4;5;6;7;8;9;10;11;12;13;14;15;16]) as I
      by (simpl; lia).
    simpl in I.
    repeat (destruct I as [I|I]; [rewrite <- I; vm_compute; reflexivity|]).
    contradiction.
Qed.
End Binary64.

(** ** Writing: [write], [sim], [release], [ovr], [auto], [_setitem] *)

Section Writing.
Context {W : Type} `{World W} {rt : PyRuntime}.

(** The test on a given priority touches nothing; it yields the suffix or
    raises. *)
Lemma check_priority_run (p : pyval) (s : state W) :
  Point.check_priority p s =
  (if accepted p then Ok (priority_suffix p) else Raise (rejection p), s).
Proof.
  unfold Point.check_priority, accepted, rejection, between_1_and_16,
    priority_suffix, bind, lift, ret, raise.
  destruct (py_float p) as [f|e]; [|reflexivity].
  destruct (float_ge f (binary64_of_Z 1)); [|reflexivity].
  destruct (float_le f (binary64_of_Z 16)); reflexivity.
Qed.

Lemma collaborator_write_run (cmd : string) (s : state W) :
  (collaborator (CallWrite cmd) (Network.write (network_of s) cmd) ;; ret tt)
    s = sent_write cmd s.
Proof.
  unfold sent_write, sent, bind, collaborator, ret, after_call.
  destruct (Network.write (network_of s) cmd (world s)) as [[r|e] w];
    reflexivity.
Qed.

Lemma write_without_priority (v : pyval) (prop : string) (s : state W) :
  Point.write v prop (PyStr "") s =
  sent_write (Point.write_command (self s) v prop (PyStr "")) s.
Proof.
  unfold Point.write. simpl. unfold bind at 1, ret at 1.
  unfold bind at 1, get_self at 1.
  apply collaborator_write_run.
Qed.

Lemma write_accepted (v : pyval) (prop : string) (p : pyval) (s : state W) :
  py_ne_str p "" = true -> accepted p = true ->
  Point.write v prop p s =
  sent_write (Point.write_command (self s) v prop (priority_suffix p)) s.
Proof.
  intros G A. unfold Point.write. rewrite G.
  unfold bind at 1. rewrite check_priority_run, A.
  unfold bind at 1, get_self at 1.
  apply collaborator_write_run.
Qed.

Lemma write_rejected (v : pyval) (prop : string) (p : pyval) (s : state W) :
  py_ne_str p "" = true -> accepted p = false ->
  Point.write v prop p s = (Raise (rejection p), s).
Proof.
  intros G A. unfold Point.write. rewrite G.
  unfold bind at 1. rewrite check_priority_run, A. reflexivity.
Qed.

Lemma sent_calls entry c cmd (s : state W) :
  calls (snd (sent entry c cmd s)) = (calls s ++ [c])%list.
Proof. reflexivity. Qed.

Lemma sent_self entry c cmd (s : state W) :
  self (snd (sent entry c cmd s)) = self s.
Proof. reflexivity. Qed.

Lemma sent_ok entry c cmd (s : state W) :
  fst (sent entry c cmd s) = Ok tt <->
  is_ok (fst (entry cmd (world s))) = true.
Proof.
  unfold sent. simpl. destruct (fst (entry cmd (world s))); simpl;
    split; congruence.
Qed.

Lemma app_one_neq {A} (l : list A) (x : A) : (l ++ [x])%list <> l.
Proof.
  intros E. apply (f_equal (@List.length A)) in E.
  rewrite length_app in E. simpl in E. lia.
Qed.

Lemma accepted_8 : accepted (PyInt 8) = true.
Proof. reflexivity. Qed.

Lemma override_command_eq (v : pyval) (s : state W) :
  Point.write_command (self s) v "presentValue" (priority_suffix (PyInt 8)) =
  override_command s v.
Proof. reflexivity. Qed.

Lemma write_at_8 (v : pyval) (s : state W) :
  Point.write v "presentValue" (PyInt 8) s =
  sent_write (override_command s v) s.
Proof.
  rewrite write_accepted by reflexivity. now rewrite override_command_eq.
Qed.

Lemma ovr_run (v : pyval) (s : state W) :
  Point.ovr v s =
  match sent_write (override_command s v) s with
  | (Ok _, s') => (Ok tt, with_self (Obj.set_overridden true) s')
  | (Raise e, s') => (Raise e, s')
  end.
Proof.
  unfold Point.ovr, bind. rewrite write_at_8.
  destruct (sent_write _ s) as [[[]|e] s']; reflexivity.
Qed.

Lemma auto_run (s : state W) :
  Point.auto s =
  match sent_write (override_command s (PyStr "null")) s with
  | (Ok _, s') => (Ok tt, with_self (Obj.set_overridden false) s')
  | (Raise e, s') => (Raise e, s')
  end.
Proof.
  unfold Point.auto, bind. rewrite write_at_8.
  destruct (sent_write _ s) as [[[]|e] s']; reflexivity.
Qed.

Lemma sim_run (v : pyval) (s : state W) :
  Point.sim v s =
  match sent_sim (Point.sim_command (self s) v) s with
  | (Ok _, s') => (Ok tt, with_self (Obj.set_simulated true) s')
  | (Raise e, s') => (Raise e, s')
  end.
Proof.
  unfold Point.sim, sent_sim, sent, bind, get_self, collaborator, modify_self,
    with_self, after_call, network_of. simpl.
  destruct (Network.sim _ _ (world s)) as [[r|e] w]; reflexivity.
Qed.

Lemma release_run (s : state W) :
  Point.release s =
  match sent_release (Point.release_command (self s)) s with
  | (Ok _, s') => (Ok tt, with_self (Obj.set_simulated false) s')
  | (Raise e, s') => (Raise e, s')
  end.
Proof.
  unfold Point.release, sent_release, sent, bind, get_self, collaborator,
    modify_self, with_self, after_call, network_of. simpl.
  destruct (Network.release _ _ (world s)) as [[r|e] w]; reflexivity.
Qed.
End Writing.

Section WritePriority.
Context {W : Type} `{World W} {rt : PyRuntime}.

Lemma accepted_integer (z : Z) : accepted (PyInt z) = true <-> 1 <= z <= 16.
Proof.
  rewrite <- integer_between. unfold accepted, py_float.
  destruct (binary64_of_Z z); split; try reflexivity; try congruence;
    try (intros B; destruct s; discriminate B).
Qed.

(** What the guard of [write] computes, slips included.  For a given
    priority [p] (anything but the default ['']) the command is sent
    exactly when [float(p)] returns a number [f] with [1 <= f <= 16], with
    the suffix ["- " + str(p)].  Otherwise nothing is sent and nothing
    changes; the exception is the [ValueError] of [write] when [float(p)]
    returned a number outside the range, and the one of [float(p)] when
    the conversion failed.  On integers the guard is right: an integer
    passes exactly when it is between 1 and 16.  It does not test that [p]
    is an integer, which is what goes wrong below. *)
Lemma write_priority_check (s : state W) (v : pyval) (prop : string)
    (p : pyval) :
  py_ne_str p "" = true ->
  (accepted p = true ->
   Point.write v prop p s =
   sent_write (Point.write_command (self s) v prop (priority_suffix p)) s) /\
  (accepted p = false ->
   Point.write v prop p s = (Raise (rejection p), s)) /\
  (calls (snd (Point.write v prop p s)) <> calls s <-> accepted p = true) /\
  (fst (Point.write v prop p s) = Ok tt <->
   accepted p = true /\
   is_ok (fst (Network.write (network_of s)
                 (Point.write_command (self s) v prop (priority_suffix p))
                 (world s))) = true) /\
  (accepted p = true <->
   exists f, py_float p = Ok f /\ between_1_and_16 f = true) /\
  (forall f, py_float p = Ok f -> rejection p = Point.priority_error) /\
  (forall e, py_float p = Raise e -> rejection p = e) /\
  (forall z, p = PyInt z -> (accepted p = true <-> 1 <= z <= 16)).
Proof.
  intros G.
  split; [intros A; now apply write_accepted|].
  split; [intros A; now apply write_rejected|].
  split.
  { destruct (accepted p) eqn:A.
    - rewrite write_accepted by assumption. unfold sent_write.
      rewrite sent_calls. split; [reflexivity|]. intros _. apply app_one_neq.
    - rewrite write_rejected by assumption. simpl.
      split; [intros N; now contradiction N | discriminate]. }
  split.
  { destruct (accepted p) eqn:A.
    - rewrite write_accepted by assumption. unfold sent_write.
      rewrite sent_ok. tauto.
    - rewrite write_rejected by assumption. simpl.
      split; [discriminate | intros [D _]; discriminate D]. }
  split.
  { unfold accepted. destruct (py_float p) as [f|e].
    - split; [intros B; exists f; auto|].
      intros (f' & E & B). now inversion E; subst.
    - split; [discriminate|]. intros (f' & E & _). discriminate E. }
  split; [intros f E; unfold rejection; now rewrite E|].
  split; [intros e E; unfold rejection; now rewrite E|].
  intros z ->. apply accepted_integer.
Qed.
End WritePriority.

(** [write_priority_check] on a stub device: priority 8 passes and the
    command is sent. *)
Lemma write_priority_check_witness :
  py_ne_str (PyInt 8) "" = true /\
  Point.write (rt := StubRuntime.runtime)
    (PyFloat StubDevice.f21_5) "presentValue" (PyInt 8)
    (StubDevice.numeric_output StubDevice.accepting) =
  sent_write "2:5 analogOutput 1 presentValue 21.5 - 8"
    (StubDevice.numeric_output StubDevice.accepting).
Proof.
  split; [reflexivity|].
  apply (write_priority_check (rt := StubRuntime.runtime)
           (StubDevice.numeric_output StubDevice.accepting)
           (PyFloat StubDevice.f21_5) "presentValue" (PyInt 8)
           eq_refl).
  reflexivity.
Defined.

(** C1.  The code at the failing input: priority 2.5 is not an integer
    (it lies strictly between 2 and 3, and [int(2.5)] is 2), yet
    [write(21.5, priority=2.5)] does not raise: it succeeds, and a command
    with the suffix ["- 2.5"], which names no priority slot, reaches the
    network object. *)
Theorem write_accepts_priority_2_5 :
  fst (Point.write (rt := StubRuntime.runtime)
         (PyFloat StubDevice.f21_5) "presentValue" (PyFloat StubDevice.f2_5)
         (StubDevice.numeric_output StubDevice.accepting)) = Ok tt /\
  calls (snd (Point.write (rt := StubRuntime.runtime)
                (PyFloat StubDevice.f21_5) "presentValue"
                (PyFloat StubDevice.f2_5)
                (StubDevice.numeric_output StubDevice.accepting))) =
    [CallWrite "2:5 analogOutput 1 presentValue 21.5 - 2.5"] /\
  SFltb (binary64_of_Z 2) StubDevice.f2_5 = true /\
  SFltb StubDevice.f2_5 (binary64_of_Z 3) = true /\
  trunc_float StubDevice.f2_5 = Ok 2.
Proof. repeat split. Qed.

(** The same guard on a priority that is no number: [None] does not reach
    the [ValueError] of [write], because [float(None)] raises [TypeError]
    first.  Nothing is sent. *)
Lemma write_priority_none :
  Point.write (rt := StubRuntime.runtime)
    (PyFloat StubDevice.f21_5) "presentValue" PyNone
    (StubDevice.numeric_output StubDevice.accepting) =
  (Raise (TypeError "float() argument must be a string or a number"),
   StubDevice.numeric_output StubDevice.accepting).
Proof. reflexivity. Qed.

(** A priority given as the string ["8"] passes the guard, and ["abc"]
    fails in [float], with the message of [float]. *)
Lemma write_priority_strings :
  calls (snd (Point.write (rt := StubRuntime.runtime)
                (PyInt 3) "presentValue" (PyStr "8")
                (StubDevice.numeric_output StubDevice.accepting))) =
    [CallWrite "2:5 analogOutput 1 presentValue 3 - 8"] /\
  Point.write (rt := StubRuntime.runtime)
    (PyInt 3) "presentValue" (PyStr "abc")
    (StubDevice.numeric_output StubDevice.accepting) =
  (Raise (ValueError "could not convert string to float"),
   StubDevice.numeric_output StubDevice.accepting).
Proof. split; reflexivity. Qed.

(** ** Substring test *)

Lemma prefix_iff (a b : string) :
  prefix a b = true <-> exists rest, b = a ++ rest.
Proof.
  revert b. induction a as [|c a IH]; intros b.
  - split; [intros _; now exists b | intros _; destruct b; reflexivity].
  - destruct b as [|d b]; simpl.
    + split; [discriminate | intros (r & E); discriminate E].
    + destruct (ascii_dec c d) as [->|N].
      * rewrite IH. split; intros (r & E); exists r; [now rewrite E|].
        now inversion E.
      * split; [discriminate|]. intros (r & E). inversion E. congruence.
Qed.

(** [str_in needle hay] is true exactly when [needle] occurs in [hay]. *)
Lemma str_in_iff (needle hay : string) :
  str_in needle hay = true <->
  exists before after, hay = before ++ needle ++ after.
Proof.
  induction hay as [|c hay IH].
  - change (str_in needle "")
      with (if prefix needle "" then true else false).
    destruct (prefix needle "") eqn:P.
    + split; [|reflexivity]. intros _. apply prefix_iff in P.
      destruct P as (r & E). now exists "", r.
    + split; [discriminate|]. intros (b & a & E).
      destruct b; [|discriminate E]. simpl in E.
      assert (prefix needle "" = true) by (apply prefix_iff; now exists a).
      congruence.
  - change (str_in needle (String c hay))
      with (if prefix needle (String c hay) then true
            else str_in needle hay).
    destruct (prefix needle (String c hay)) eqn:P.
    + split; [|reflexivity]. intros _. apply prefix_iff in P.
      destruct P as (r & E). now exists "", r.
    + rewrite IH. split.
      * intros (b & a & ->). now exists (String c b), a.
      * intros ([|d b] & a & E).
        -- simpl in E.
           assert (prefix needle (String c hay) = true)
             by (apply prefix_iff; now exists a).
           congruence.
        -- inversion E. now exists b, a.
Qed.

Section Routing.
Context {W : Type} {rt : PyRuntime}.

Lemma setitem_run (v : pyval) (s : state W) :
  Point._setitem v s =
  if str_in "Value" (Obj.type (Obj.properties (self s))) then
    Point.write v "presentValue" (PyStr "") s
  else if str_in "Output" (Obj.type (Obj.properties (self s))) then
    Point.ovr v s
  else Point.sim v s.
Proof.
  unfold Point._setitem, bind, get_self.
  destruct (str_in "Value" _); [reflexivity|].
  destruct (str_in "Output" _); reflexivity.
Qed.

(** C2.  [_setitem(v)] routes on the point's type name.  If the name
    contains ["Value"], it is the plain [write(v)]: one write command with
    no priority suffix.  Else, if the name contains ["Output"], it is
    [ovr(v)]: one write command at priority 8.  Otherwise it is [sim(v)]:
    one simulate command and no write. *)
Theorem setitem_routes_on_type (s : state W) (v : pyval) :
  (str_in "Value" (Obj.type (Obj.properties (self s))) = true ->
   Point._setitem v s = Point.write v "presentValue" (PyStr "") s /\
   calls (snd (Point._setitem v s)) =
     (calls s ++
      [CallWrite (Point.write_command (self s) v "presentValue" (PyStr ""))])%list
   /\ simulated (snd (Point._setitem v s)) = simulated s
   /\ overridden (snd (Point._setitem v s)) = overridden s) /\
  (str_in "Value" (Obj.type (Obj.properties (self s))) = false ->
   str_in "Output" (Obj.type (Obj.properties (self s))) = true ->
   Point._setitem v s = Point.ovr v s /\
   calls (snd (Point._setitem v s)) =
     (calls s ++ [CallWrite (override_command s v)])%list) /\
  (str_in "Value" (Obj.type (Obj.properties (self s))) = false ->
   str_in "Output" (Obj.type (Obj.properties (self s))) = false ->
   Point._setitem v s = Point.sim v s /\
   calls (snd (Point._setitem v s)) =
     (calls s ++ [CallSim (Point.sim_command (self s) v)])%list).
Proof.
  rewrite setitem_run.
  split; [|split].
  - intros V. rewrite V. split; [reflexivity|].
    rewrite write_without_priority. unfold sent_write. auto.
  - intros V O. rewrite V, O. split; [reflexivity|].
    rewrite ovr_run. unfold sent_write.
    destruct (sent _ _ _ s) as [[[]|e] s'] eqn:E;
      apply (f_equal snd) in E; simpl in E; subst s'; reflexivity.
  - intros V O. rewrite V, O. split; [reflexivity|].
    rewrite sim_run. unfold sent_sim.
    destruct (sent _ _ _ s) as [[[]|e] s'] eqn:E;
      apply (f_equal snd) in E; simpl in E; subst s'; reflexivity.
Qed.
End Routing.

(** C2, on stub devices: an [analogValue] is written, an [analogOutput] is
    overridden, an [analogInput] is simulated. *)
Lemma setitem_routes_on_type_witness :
  (str_in "Value" "analogValue" = true /\
   calls (snd (Point._setitem (rt := StubRuntime.runtime) (PyInt 7)
                 (StubDevice.numeric_value StubDevice.accepting))) =
     [CallWrite "2:5 analogValue 1 presentValue 7 "]) /\
  (str_in "Value" "analogOutput" = false /\
   str_in "Output" "analogOutput" = true /\
   calls (snd (Point._setitem (rt := StubRuntime.runtime) (PyInt 7)
                 (StubDevice.numeric_output StubDevice.accepting))) =
     [CallWrite "2:5 analogOutput 1 presentValue 7 - 8"]) /\
  (str_in "Value" "analogInput" = false /\
   str_in "Output" "analogInput" = false /\
   calls (snd (Point._setitem (rt := StubRuntime.runtime) (PyInt 7)
                 (StubDevice.numeric_input StubDevice.accepting))) =
     [CallSim "2:5 analogInput 1 presentValue 7"]).
Proof.
  split; [|split].
  - split; [reflexivity|].
    apply (setitem_routes_on_type (rt := StubRuntime.runtime)
             (StubDevice.numeric_value StubDevice.accepting) (PyInt 7)).
    reflexivity.
  - split; [reflexivity|]. split; [reflexivity|].
    apply (setitem_routes_on_type (rt := StubRuntime.runtime)
             (StubDevice.numeric_output StubDevice.accepting) (PyInt 7));
      reflexivity.
  - split; [reflexivity|]. split; [reflexivity|].
    apply (setitem_routes_on_type (rt := StubRuntime.runtime)
             (StubDevice.numeric_input StubDevice.accepting) (PyInt 7));
      reflexivity.
Defined.

(** ** The control flags *)

Section Flags.
Context {W : Type} {rt : PyRuntime}.

Lemma sent_outcome entry c cmd (s : state W) :
  (exists r, fst (entry cmd (world s)) = Ok r /\
             sent entry c cmd s =
             (Ok tt, after_call s c (snd (entry cmd (world s))))) \/
  (exists e, fst (entry cmd (world s)) = Raise e /\
             sent entry c cmd s =
             (Raise e, after_call s c (snd (entry cmd (world s))))).
Proof.
  unfold sent. destruct (fst (entry cmd (world s))) as [r|e].
  - left. now exists r.
  - right. now exists e.
Qed.

(** C7.  A [sim(v)] that succeeds leaves [simulated] true, a [release()]
    that succeeds leaves it false; an [ovr(v)] that succeeds has sent the
    write of [v] at priority 8 and leaves [overridden] true, an [auto()]
    that succeeds has sent the write of ['null'] at priority 8 and leaves
    [overridden] false.  Each leaves the other flag as it was, and whether
    it succeeds depends on the network object alone, not on the flags: so
    [sim] on an overridden point gives a point with both flags set. *)
Theorem control_flags (s : state W) (v : pyval) :
  (fst (Point.sim v s) = Ok tt ->
   simulated (snd (Point.sim v s)) = true /\
   overridden (snd (Point.sim v s)) = overridden s /\
   calls (snd (Point.sim v s)) =
     (calls s ++ [CallSim (Point.sim_command (self s) v)])%list) /\
  (fst (Point.release s) = Ok tt ->
   simulated (snd (Point.release s)) = false /\
   overridden (snd (Point.release s)) = overridden s /\
   calls (snd (Point.release s)) =
     (calls s ++ [CallRelease (Point.release_command (self s))])%list) /\
  (fst (Point.ovr v s) = Ok tt ->
   overridden (snd (Point.ovr v s)) = true /\
   simulated (snd (Point.ovr v s)) = simulated s /\
   calls (snd (Point.ovr v s)) =
     (calls s ++ [CallWrite (override_command s v)])%list) /\
  (fst (Point.auto s) = Ok tt ->
   overridden (snd (Point.auto s)) = false /\
   simulated (snd (Point.auto s)) = simulated s /\
   calls (snd (Point.auto s)) =
     (calls s ++ [CallWrite (override_command s (PyStr "null"))])%list) /\
  (fst (Point.sim v s) = Ok tt <->
   is_ok (fst (Network.sim (network_of s) (Point.sim_command (self s) v)
                 (world s))) = true) /\
  (fst (Point.release s) = Ok tt <->
   is_ok (fst (Network.release (network_of s)
                 (Point.release_command (self s)) (world s))) = true) /\
  (fst (Point.ovr v s) = Ok tt <->
   is_ok (fst (Network.write (network_of s) (override_command s v)
                 (world s))) = true) /\
  (fst (Point.auto s) = Ok tt <->
   is_ok (fst (Network.write (network_of s)
                 (override_command s (PyStr "null")) (world s))) = true).
Proof.
  rewrite sim_run, release_run, ovr_run, auto_run.
  unfold sent_sim, sent_release, sent_write.
  destruct (sent_outcome (Network.sim (network_of s))
              (CallSim (Point.sim_command (self s) v))
              (Point.sim_command (self s) v) s)
    as [(r1 & E1 & ->)|(e1 & E1 & ->)];
  destruct (sent_outcome (Network.release (network_of s))
              (CallRelease (Point.release_command (self s)))
              (Point.release_command (self s)) s)
    as [(r2 & E2 & ->)|(e2 & E2 & ->)];
  destruct (sent_outcome (Network.write (network_of s))
              (CallWrite (override_command s v)) (override_command s v) s)
    as [(r3 & E3 & ->)|(e3 & E3 & ->)];
  destruct (sent_outcome (Network.write (network_of s))
              (CallWrite (override_command s (PyStr "null")))
              (override_command s (PyStr "null")) s)
    as [(r4 & E4 & ->)|(e4 & E4 & ->)];
  rewrite E1, E2, E3, E4; simpl;
  repeat match goal with
         | |- _ /\ _ => split
         | |- _ <-> _ => split
         | |- _ -> _ => intro
         end;
  try reflexivity; try discriminate.
Qed.

(** C10.  When the call that [sim(v)], [release()], [ovr(v)] or [auto()]
    makes to the network object raises [e], the method raises that same
    [e] and the point is exactly as before, so [simulated] and [overridden]
    are unchanged; only the collaborator has seen the call. *)
Theorem flags_unchanged_on_failure (s : state W) (v : pyval) (e : exn) :
  (fst (Network.sim (network_of s) (Point.sim_command (self s) v) (world s))
     = Raise e ->
   fst (Point.sim v s) = Raise e /\
   self (snd (Point.sim v s)) = self s /\
   simulated (snd (Point.sim v s)) = simulated s /\
   overridden (snd (Point.sim v s)) = overridden s) /\
  (fst (Network.release (network_of s) (Point.release_command (self s))
          (world s)) = Raise e ->
   fst (Point.release s) = Raise e /\
   self (snd (Point.release s)) = self s /\
   simulated (snd (Point.release s)) = simulated s /\
   overridden (snd (Point.release s)) = overridden s) /\
  (fst (Network.write (network_of s) (override_command s v) (world s))
     = Raise e ->
   fst (Point.ovr v s) = Raise e /\
   self (snd (Point.ovr v s)) = self s /\
   simulated (snd (Point.ovr v s)) = simulated s /\
   overridden (snd (Point.ovr v s)) = overridden s) /\
  (fst (Network.write (network_of s) (override_command s (PyStr "null"))
          (world s)) = Raise e ->
   fst (Point.auto s) = Raise e /\
   self (snd (Point.auto s)) = self s /\
   simulated (snd (Point.auto s)) = simulated s /\
   overridden (snd (Point.auto s)) = overridden s).
Proof.
  rewrite sim_run, release_run, ovr_run, auto_run.
  unfold sent_sim, sent_release, sent_write, sent.
  split; [|split; [|split]]; intros E; rewrite E; repeat split.
Qed.
End Flags.

(** C7, on a stub device: overriding an input sets [overridden], and
    simulating the overridden input succeeds and leaves both flags set. *)
Lemma control_flags_witness :
  fst (Point.ovr (rt := StubRuntime.runtime) (PyInt 10)
         (StubDevice.numeric_input StubDevice.accepting)) = Ok tt /\
  overridden StubDevice.overridden_input = true /\
  fst (Point.sim (rt := StubRuntime.runtime) (PyInt 5) StubDevice.overridden_input)
    = Ok tt /\
  simulated (snd (Point.sim (rt := StubRuntime.runtime) (PyInt 5)
                    StubDevice.overridden_input)) = true /\
  overridden (snd (Point.sim (rt := StubRuntime.runtime) (PyInt 5)
                     StubDevice.overridden_input)) = true /\
  calls (snd (Point.sim (rt := StubRuntime.runtime) (PyInt 5)
                StubDevice.overridden_input)) =
    [CallWrite "2:5 analogInput 1 presentValue 10 - 8";
     CallSim "2:5 analogInput 1 presentValue 5"].
Proof.
  destruct (control_flags (rt := StubRuntime.runtime)
              (StubDevice.numeric_input StubDevice.accepting) (PyInt 10))
    as (_ & _ & O & _).
  destruct (O eq_refl) as (O1 & _ & _).
  destruct (control_flags (rt := StubRuntime.runtime)
              StubDevice.overridden_input (PyInt 5))
    as (S & _).
  destruct (S eq_refl) as (S1 & S2 & S3).
  split; [reflexivity|]. split; [exact O1|]. split; [reflexivity|].
  split; [exact S1|]. split; [rewrite S2; exact O1 | exact S3].
Defined.

(** C10, on a stub device whose network object fails with a timeout:
    [sim(5)] and [ovr(5)] raise that timeout and both flags stay false. *)
Lemma flags_unchanged_on_failure_witness :
  fst (Network.sim (StubDevice.refusing StubDevice.timeout)
         "2:5 analogInput 1 presentValue 5" 1) = Raise StubDevice.timeout /\
  fst (Point.sim (rt := StubRuntime.runtime) (PyInt 5)
         (StubDevice.numeric_input (StubDevice.refusing StubDevice.timeout)))
    = Raise StubDevice.timeout /\
  simulated
    (snd (Point.sim (rt := StubRuntime.runtime) (PyInt 5)
            (StubDevice.numeric_input (StubDevice.refusing StubDevice.timeout))))
    = false /\
  fst (Point.ovr (rt := StubRuntime.runtime) (PyInt 5)
         (StubDevice.numeric_input (StubDevice.refusing StubDevice.timeout)))
    = Raise StubDevice.timeout /\
  overridden
    (snd (Point.ovr (rt := StubRuntime.runtime) (PyInt 5)
            (StubDevice.numeric_input (StubDevice.refusing StubDevice.timeout))))
    = false.
Proof.
  destruct (flags_unchanged_on_failure (rt := StubRuntime.runtime)
              (StubDevice.numeric_input (StubDevice.refusing StubDevice.timeout))
              (PyInt 5) StubDevice.timeout)
    as (S & _ & O & _).
  destruct (S eq_refl) as (S1 & _ & S2 & _).
  destruct (O eq_refl) as (O1 & _ & _ & O2).
  split; [reflexivity|]. split; [exact S1|]. split; [exact S2|].
  split; [exact O1 | exact O2].
Defined.

(** ** The history *)

Section History.
Context {W : Type} `{World W} {rt : PyRuntime} {pd : Pandas}.

Lemma write_self (v : pyval) (prop : string) (p : pyval) (s : state W) :
  self (snd (Point.write v prop p s)) = self s.
Proof.
  destruct (py_ne_str p "") eqn:G.
  - destruct (accepted p) eqn:A.
    + now rewrite write_accepted.
    + now rewrite write_rejected.
  - unfold py_ne_str in G. apply negb_false_iff, py_eq_str_true in G.
    subst p. now rewrite write_without_priority.
Qed.

Lemma sim_history (v : pyval) (s : state W) :
  Obj._history (self (snd (Point.sim v s))) = Obj._history (self s).
Proof.
  rewrite sim_run. unfold sent_sim.
  destruct (sent_outcome (Network.sim (network_of s))
              (CallSim (Point.sim_command (self s) v))
              (Point.sim_command (self s) v) s)
    as [(r & _ & ->)|(e & _ & ->)]; reflexivity.
Qed.

Lemma release_history (s : state W) :
  Obj._history (self (snd (Point.release s))) = Obj._history (self s).
Proof.
  rewrite release_run. unfold sent_release.
  destruct (sent_outcome (Network.release (network_of s))
              (CallRelease (Point.release_command (self s)))
              (Point.release_command (self s)) s)
    as [(r & _ & ->)|(e & _ & ->)]; reflexivity.
Qed.

Lemma ovr_history (v : pyval) (s : state W) :
  Obj._history (self (snd (Point.ovr v s))) = Obj._history (self s).
Proof.
  rewrite ovr_run. unfold sent_write.
  destruct (sent_outcome (Network.write (network_of s))
              (CallWrite (override_command s v)) (override_command s v) s)
    as [(r & _ & ->)|(e & _ & ->)]; reflexivity.
Qed.

Lemma auto_history (s : state W) :
  Obj._history (self (snd (Point.auto s))) = Obj._history (self s).
Proof.
  rewrite auto_run. unfold sent_write.
  destruct (sent_outcome (Network.write (network_of s))
              (CallWrite (override_command s (PyStr "null")))
              (override_command s (PyStr "null")) s)
    as [(r & _ & ->)|(e & _ & ->)]; reflexivity.
Qed.

Lemma setitem_history (v : pyval) (s : state W) :
  Obj._history (self (snd (Point._setitem v s))) = Obj._history (self s).
Proof.
  rewrite setitem_run.
  destruct (str_in "Value" _); [now rewrite write_self|].
  destruct (str_in "Output" _); [apply ovr_history | apply sim_history].
Qed.

Lemma enumValue_raise (s : state W) (e : exn) (w : W) :
  the_read s = (Raise e, w) ->
  EnumPoint.enumValue s =
  (Raise e, after_call s (CallRead (Obj.name (Obj.properties (self s)))) w).
Proof.
  intros E. unfold EnumPoint.enumValue, bind at 1, get_self at 1.
  unfold bind at 1. now rewrite (value_raise _ _ _ E).
Qed.

(** A call leaves the history as it was, or as one reading leaves it. *)
Lemma history_step (m : method) (s : state W) :
  Obj._history (self (invoke m s)) = Obj._history (self s) \/
  exists res w,
    Obj._history (self (invoke m s)) =
    Obj._history (self (after_read s res w)).
Proof.
  destruct m; simpl invoke;
    try (left; reflexivity);
    try (left; rewrite write_self; reflexivity).
  - destruct (the_read s) as [[res|e] w] eqn:E.
    + right. exists res, w. now rewrite (value_ok _ _ _ E).
    + left. now rewrite (value_raise _ _ _ E).
  - left. unfold Point.default. now rewrite write_self.
  - left. apply sim_history.
  - left. apply release_history.
  - left. apply ovr_history.
  - left. apply auto_history.
  - left. apply setitem_history.
  - left. unfold NumericPoint._set, bind, lift.
    destruct (py_float value); [apply setitem_history | reflexivity].
  - destruct (the_read s) as [[res|e] w] eqn:E.
    + right. exists res, w. rewrite (boolean_value_ok _ _ _ E). simpl.
      apply cache_of_value_history.
    + left. now rewrite (boolean_value_raise _ _ _ E).
  - destruct (the_read s) as [[res|e] w] eqn:E.
    + right. exists res, w. rewrite (boolValue_ok _ _ _ E). simpl.
      rewrite cache_of_boolValue_history. apply cache_of_value_history.
    + left. now rewrite (boolValue_raise _ _ _ E).
  - destruct (the_read s) as [[res|e] w] eqn:E.
    + right. exists res, w. now rewrite (enumValue_ok _ _ _ E).
    + left. now rewrite (enumValue_raise _ _ _ E).
Qed.

Lemma grows_refl (s : state W) : grows s s.
Proof. exists [], []. now rewrite !app_nil_r. Qed.

Lemma grows_trans (s1 s2 s3 : state W) :
  grows s1 s2 -> grows s2 s3 -> grows s1 s3.
Proof.
  intros (ts & vs & T & V & L) (ts' & vs' & T' & V' & L').
  exists (ts ++ ts')%list, (vs ++ vs')%list.
  rewrite T', V', T, V, <- !app_assoc, !length_app. auto.
Qed.

Lemma invoke_grows (m : method) (s : state W) : grows s (invoke m s).
Proof.
  destruct (history_step m s) as [E|(res & w & E)]; unfold grows, timestamps,
    values; rewrite E.
  - exists [], []. now rewrite !app_nil_r.
  - exists [fst (datetime_now w)], [res].
    fold (timestamps (after_read s res w)) (values (after_read s res w)).
    now rewrite after_read_timestamps, after_read_values.
Qed.

Lemma run_grows (ms : list method) (s : state W) : grows s (run ms s).
Proof.
  revert s. induction ms as [|m ms IH]; intros s; simpl.
  - apply grows_refl.
  - eapply grows_trans; [apply invoke_grows | apply IH].
Qed.

Lemma grows_lengths (s s' : state W) :
  grows s s' ->
  List.length (timestamps s) = List.length (values s) ->
  List.length (timestamps s') = List.length (values s').
Proof.
  intros (ts & vs & -> & -> & L) E. rewrite !length_app. lia.
Qed.
End History.

Section HistoryInvariant.
Context {W : Type} `{World W} {rt : PyRuntime} {pd : Pandas}.
Variable device : Device.t W.
Variables pointType pointName : string.
Variables pointAddress description presentValue : pyval.
Variable units_state : units_state_t.
Variable w : W.

(** The point right after construction, before any call. *)
Local Abbreviation born :=
  (constructed device pointType pointAddress pointName description
     presentValue units_state w).

Lemma born_history :
  timestamps born = [fst (datetime_now w)] /\ values born = [presentValue].
Proof.
  unfold constructed, Point.__init__, timestamps, values.
  destruct (datetime_now w). auto.
Qed.

Lemma reachable_history (ms : list method) :
  List.length (timestamps (run ms born)) = List.length (values (run ms born))
  /\
  exists ts vs,
    timestamps (run ms born) = fst (datetime_now w) :: ts /\
    values (run ms born) = presentValue :: vs.
Proof.
  destruct born_history as [T V].
  pose proof (run_grows ms born) as G. split.
  - apply (grows_lengths _ _ G). now rewrite T, V.
  - destruct G as (ts & vs & -> & -> & _). rewrite T, V. simpl. eauto.
Qed.

(** C8.  Construction leaves exactly one sample in the history: the time
    of construction and [presentValue] (which may be [None]); no call has
    reached the collaborator yet.  Every method call, whether it returns
    or raises, only appends to the two lists, and appends as many time
    stamps as values.  So after any sequence of calls the two lists have
    the same length and still start with the seed sample. *)
Theorem history_is_append_only :
  (timestamps born = [fst (datetime_now w)] /\
   values born = [presentValue] /\
   calls born = []) /\
  (forall (s : state W) (m : method), grows s (invoke m s)) /\
  (forall (s : state W) (ms : list method), grows s (run ms s)) /\
  (forall ms : list method,
     List.length (timestamps (run ms born)) =
       List.length (values (run ms born)) /\
     exists ts vs,
       timestamps (run ms born) = fst (datetime_now w) :: ts /\
       values (run ms born) = presentValue :: vs).
Proof.
  split.
  { destruct born_history as [T V]. repeat split; try assumption.
    unfold constructed, Point.__init__.
    destruct (datetime_now w). reflexivity. }
  split; [intros s m; apply invoke_grows|].
  split; [intros s ms; apply run_grows|].
  apply reachable_history.
Qed.

End HistoryInvariant.

(** ** Worked scenarios *)

(** A numeric point on a device that answers 21.5: [value] returns 21.5,
    then [lastValue] returns 21.5 without a second read, and the history
    has two entries. *)
Example read_then_lastValue :
  fst (Point.lastValue
         (snd (Point.value (H := StubDevice.clock)
                 (StubDevice.numeric_input StubDevice.accepting)))) =
    Ok (PyFloat StubDevice.f21_5) /\
  fst (Point.history (pd := StubPandas.pandas)
         (snd (Point.value (H := StubDevice.clock)
                 (StubDevice.numeric_input StubDevice.accepting)))) =
    Ok (StubPandas.mk_series [0; 1]
          [PyFloat S754_nan; PyFloat StubDevice.f21_5]) /\
  calls (snd (Point.lastValue
                (snd (Point.value (H := StubDevice.clock)
                        (StubDevice.numeric_input StubDevice.accepting))))) =
    [CallRead "pt"].
Proof. repeat split. Qed.

(** [sim(5)] then [release()] on an input: a simulate command, then a
    release command, and [simulated] is false again. *)
Example sim_then_release :
  calls (snd (Point.release (rt := StubRuntime.runtime)
                (snd (Point.sim (rt := StubRuntime.runtime) (PyInt 5)
                        (StubDevice.numeric_input StubDevice.accepting))))) =
    [CallSim "2:5 analogInput 1 presentValue 5";
     CallRelease "2:5 analogInput 1"] /\
  simulated (snd (Point.release (rt := StubRuntime.runtime)
                    (snd (Point.sim (rt := StubRuntime.runtime) (PyInt 5)
                            (StubDevice.numeric_input StubDevice.accepting)))))
    = false.
Proof. split; reflexivity. Qed.

(** [ovr(10)] then [auto()] on an output: two writes at priority 8, the
    second of ['null'], and [overridden] is false again. *)
Example ovr_then_auto :
  calls (snd (Point.auto (rt := StubRuntime.runtime)
                (snd (Point.ovr (rt := StubRuntime.runtime) (PyInt 10)
                        (StubDevice.numeric_output StubDevice.accepting))))) =
    [CallWrite "2:5 analogOutput 1 presentValue 10 - 8";
     CallWrite "2:5 analogOutput 1 presentValue null - 8"] /\
  overridden (snd (Point.auto (rt := StubRuntime.runtime)
                     (snd (Point.ovr (rt := StubRuntime.runtime) (PyInt 10)
                             (StubDevice.numeric_output StubDevice.accepting)))))
    = false.
Proof. split; reflexivity. Qed.

(** * Further properties *)

(** ** [lastValue] *)

Lemma py_index_minus_one {A} (l : list A) (d : A) :
  l <> [] -> py_index l (-1) = Ok (last l d).
Proof.
  intros N. destruct (exists_last N) as (front & y & ->).
  rewrite last_last, py_index_negative
    by (rewrite length_app; simpl; lia).
  destruct (py_index_nonneg (front ++ [y])%list
              (-1 + Z.of_nat (List.length (front ++ [y])%list)))
    as (x & Nth & ->);
    [rewrite !length_app; change (List.length [y]) with 1%nat; lia|].
  rewrite length_app in Nth. change (List.length [y]) with 1%nat in Nth.
  replace (Z.to_nat (-1 + Z.of_nat (List.length front + 1)))
    with (List.length front) in Nth by lia.
  rewrite nth_error_app2, Nat.sub_diag in Nth by lia.
  simpl in Nth. congruence.
Qed.

Section LastValue.
Context {W : Type} `{World W} {rt : PyRuntime}.

Lemma lastValue_run (s : state W) (d : pyval) :
  values s <> [] -> Point.lastValue s = (Ok (last (values s) d), s).
Proof.
  intros N. unfold Point.lastValue, bind, get_self, lift.
  fold (values s). now rewrite (py_index_minus_one _ d N).
Qed.

Lemma value_appends_the_reading_values (s : state W) (res : pyval) (w : W) :
  the_read s = (Ok res, w) ->
  values (snd (Point.value s)) = (values s ++ [res])%list /\
  values (snd (BooleanPoint.value s)) = (values s ++ [res])%list.
Proof.
  intros E. rewrite (value_ok _ _ _ E), (boolean_value_ok _ _ _ E). simpl.
  split; [apply after_read_values|].
  unfold values, with_self. simpl. rewrite cache_of_value_history.
  apply after_read_values.
Qed.

(** After a read that returned [res], through [Point.value] or through
    [BooleanPoint.value], [lastValue] returns [res]; it makes no call to
    the device and changes nothing. *)
Theorem lastValue_after_read (s : state W) (res : pyval) (w : W) :
  the_read s = (Ok res, w) ->
  Point.lastValue (snd (Point.value s)) = (Ok res, snd (Point.value s)) /\
  Point.lastValue (snd (BooleanPoint.value s)) =
    (Ok res, snd (BooleanPoint.value s)).
Proof.
  intros E.
  destruct (value_appends_the_reading_values s res w E) as [V B].
  split.
  - rewrite (lastValue_run _ res) by (rewrite V; apply not_eq_sym, app_cons_not_nil).
    now rewrite V, last_last.
  - rewrite (lastValue_run _ res) by (rewrite B; apply not_eq_sym, app_cons_not_nil).
    now rewrite B, last_last.
Qed.
End LastValue.

(** [lastValue_after_read] on a stub device that answers 21.5. *)
Lemma lastValue_after_read_witness :
  the_read (StubDevice.numeric_input StubDevice.accepting) =
    (Ok (PyFloat StubDevice.f21_5), 1) /\
  fst (Point.lastValue
         (snd (Point.value (H := StubDevice.clock)
                 (StubDevice.numeric_input StubDevice.accepting)))) =
    Ok (PyFloat StubDevice.f21_5).
Proof.
  assert (E : the_read (StubDevice.numeric_input StubDevice.accepting) =
              (Ok (PyFloat StubDevice.f21_5), 1)) by reflexivity.
  split; [exact E|].
  destruct (lastValue_after_read (H := StubDevice.clock) _ _ _ E) as [L _].
  now rewrite L.
Defined.

(** ** Printing a point: [__repr__] *)

Section Printing.
Context {W : Type} `{World W} {rt : PyRuntime} {fmt : PyFormat}.

Lemma numeric_repr_ok (s : state W) (res : pyval) (w : W) :
  the_read s = (Ok res, w) ->
  NumericPoint.__repr__ s =
  (match py_format_2f res with
   | Ok txt =>
       Ok (Obj.name (Obj.properties (self s)) ++ " : " ++ txt ++ " " ++
           str_units (Obj.units_state (Obj.properties (self s))))
   | Raise e => Raise e
   end,
   after_read s res w).
Proof.
  intros E. unfold NumericPoint.__repr__, bind at 1, get_self at 1.
  unfold bind at 1. rewrite (value_ok _ _ _ E).
  unfold bind, get_self, lift, ret.
  rewrite after_read_properties.
  destruct (py_format_2f res); reflexivity.
Qed.

Lemma numeric_repr_raise (s : state W) (e : exn) (w : W) :
  the_read s = (Raise e, w) ->
  NumericPoint.__repr__ s =
  (Raise e, after_call s (CallRead (Obj.name (Obj.properties (self s)))) w).
Proof.
  intros E. unfold NumericPoint.__repr__, bind at 1, get_self at 1.
  unfold bind at 1. now rewrite (value_raise _ _ _ E).
Qed.

Lemma boolean_repr_ok (s : state W) (res : pyval) (w : W) :
  the_read s = (Ok res, w) ->
  BooleanPoint.__repr__ s =
  (Ok (Obj.name (Obj.properties (self s)) ++ " : " ++
       py_str (PyBool (py_eq_str res "active"))),
   snd (BooleanPoint.boolValue s)).
Proof.
  intros E. unfold BooleanPoint.__repr__, bind at 1, get_self at 1.
  unfold bind at 1. now rewrite (boolValue_ok _ _ _ E).
Qed.

Lemma boolean_repr_raise (s : state W) (e : exn) (w : W) :
  the_read s = (Raise e, w) ->
  BooleanPoint.__repr__ s =
  (Raise e, after_call s (CallRead (Obj.name (Obj.properties (self s)))) w).
Proof.
  intros E. unfold BooleanPoint.__repr__, bind at 1, get_self at 1.
  unfold bind at 1. now rewrite (boolValue_raise _ _ _ E).
Qed.

Lemma enum_repr_run (s : state W) :
  EnumPoint.__repr__ s =
  (match fst (EnumPoint.enumValue s) with
   | Ok label =>
       Ok (Obj.name (Obj.properties (self s)) ++ " : " ++ py_str label)
   | Raise e => Raise e
   end,
   snd (EnumPoint.enumValue s)).
Proof.
  unfold EnumPoint.__repr__, bind at 1, get_self at 1. unfold bind at 1.
  destruct (EnumPoint.enumValue s) as [[label|e] s']; reflexivity.
Qed.

(** A read that fails is all that happens: when the device's read raises
    [e], each of [value], [BooleanPoint.value], [boolValue], [enumValue]
    and the three [__repr__] raises [e] and leaves the point as it was:
    nothing is appended to the history, no cache and no flag is set. *)
Theorem failed_read_is_atomic (s : state W) (e : exn) (w : W) :
  the_read s = (Raise e, w) ->
  raises_untouched Point.value s e /\
  raises_untouched BooleanPoint.value s e /\
  raises_untouched BooleanPoint.boolValue s e /\
  raises_untouched EnumPoint.enumValue s e /\
  raises_untouched NumericPoint.__repr__ s e /\
  raises_untouched BooleanPoint.__repr__ s e /\
  raises_untouched EnumPoint.__repr__ s e.
Proof.
  intros E. unfold raises_untouched.
  rewrite enum_repr_run.
  rewrite (value_raise _ _ _ E), (boolean_value_raise _ _ _ E),
    (boolValue_raise _ _ _ E), (enumValue_raise _ _ _ E),
    (numeric_repr_raise _ _ _ E), (boolean_repr_raise _ _ _ E).
  simpl. repeat split.
Qed.

(** Printing a Boolean point reads the device: when the read returns
    [res], [BooleanPoint.__repr__] gives the name, [" : "] and ["True"] if
    [res] is ["active"], ["False"] otherwise, and leaves the point as
    [boolValue] does, with one more entry in the history. *)
Theorem boolean_repr_reads (s : state W) (res : pyval) (w : W) :
  the_read s = (Ok res, w) ->
  fst (BooleanPoint.__repr__ s) =
    Ok (Obj.name (Obj.properties (self s)) ++ " : " ++
        (if py_eq_str res "active" then "True" else "False")) /\
  snd (BooleanPoint.__repr__ s) = snd (BooleanPoint.boolValue s) /\
  values (snd (BooleanPoint.__repr__ s)) = (values s ++ [res])%list /\
  calls (snd (BooleanPoint.__repr__ s)) =
    (calls s ++ [CallRead (Obj.name (Obj.properties (self s)))])%list.
Proof.
  intros E. rewrite (boolean_repr_ok _ _ _ E). simpl.
  split; [now destruct (py_eq_str res "active")|].
  split; [reflexivity|].
  rewrite (boolValue_ok _ _ _ E). simpl. split.
  - unfold values. simpl.
    rewrite cache_of_boolValue_history, cache_of_value_history.
    apply after_read_values.
  - apply after_read_calls.
Qed.

(** Printing a numeric point reads the device: when the read returns
    [res], the reading is appended to the history whether or not it can be
    printed.  If [res] is a number, the text is the name, [" : "], the
    number with two decimals, a blank and the units; if [res] is a string
    or [None], [__repr__] raises [TypeError]. *)
Theorem numeric_repr_reads (s : state W) (res : pyval) (w : W) :
  the_read s = (Ok res, w) ->
  snd (NumericPoint.__repr__ s) = after_read s res w /\
  values (snd (NumericPoint.__repr__ s)) = (values s ++ [res])%list /\
  (forall f, res = PyFloat f ->
     fst (NumericPoint.__repr__ s) =
       Ok (Obj.name (Obj.properties (self s)) ++ " : " ++ format_2f f ++
           " " ++ str_units (Obj.units_state (Obj.properties (self s))))) /\
  (forall t, res = PyStr t ->
     fst (NumericPoint.__repr__ s) = Raise (TypeError "must be real number")) /\
  (res = PyNone ->
     fst (NumericPoint.__repr__ s) = Raise (TypeError "must be real number")).
Proof.
  intros E. rewrite (numeric_repr_ok _ _ _ E). simpl.
  split; [reflexivity|]. split; [apply after_read_values|].
  split; [intros f ->; reflexivity|].
  split; [intros t ->; reflexivity | intros ->; reflexivity].
Qed.
End Printing.

(** ** Decoding an enumerated reading *)

Section EnumDecoding.
Context {W : Type} `{World W} {rt : PyRuntime}.

Lemma py_index_wraps {A} (l : list A) (j : Z) :
  - Z.of_nat (List.length l) <= j < Z.of_nat (List.length l) ->
  exists x,
    nth_error l (Z.to_nat (j mod Z.of_nat (List.length l))) = Some x /\
    py_index l j = Ok x.
Proof.
  intros R. destruct (Z.lt_ge_cases j 0) as [Neg|Pos].
  - rewrite py_index_negative by lia.
    rewrite <- (Z_mod_plus_full j 1), Z.mul_1_l, Z.mod_small by lia.
    apply py_index_nonneg. lia.
  - rewrite Z.mod_small by lia. apply py_index_nonneg. lia.
Qed.

(** The bounds of [enumValue] as the code has them.  With a table of [n]
    states and a raw index [i], [enumValue] returns a label exactly when
    [1 - n <= i <= n]: the label [states[i-1]] for [1 <= i], and for
    [i <= 0] the label counted from the end of the table.  Outside that
    range it raises [IndexError]. *)
Theorem enumValue_index_bounds (s : state W) (res : pyval) (w : W)
    (states : list pyval) (i : Z) :
  the_read s = (Ok res, w) ->
  py_int res = Ok i ->
  Obj.units_state (Obj.properties (self s)) = StateTable states ->
  (1 - Z.of_nat (List.length states) <= i <= Z.of_nat (List.length states) ->
   exists label,
     nth_error states
       (Z.to_nat ((i - 1) mod Z.of_nat (List.length states))) = Some label /\
     fst (EnumPoint.enumValue s) = Ok label) /\
  (i < 1 - Z.of_nat (List.length states) \/
   Z.of_nat (List.length states) < i ->
   fst (EnumPoint.enumValue s) = Raise (IndexError "index out of range")).
Proof.
  intros E I U. rewrite (enumValue_ok _ _ _ E), I, U.
  cbn [fst py_subscript]. split.
  - intros R. apply py_index_wraps. lia.
  - intros [Lo|Hi]; [apply py_index_below | apply py_index_above]; lia.
Qed.

(** A reading that cannot be decoded is recorded all the same: when the
    read returns [res], [enumValue] appends [res] to the history before it
    converts it, so the history has grown by [res] even when [int(res)]
    raises or the index is out of range, and [int]'s exception is the one
    the caller gets. *)
Theorem undecodable_reading_is_recorded (s : state W) (res : pyval) (w : W) :
  the_read s = (Ok res, w) ->
  snd (EnumPoint.enumValue s) = after_read s res w /\
  values (snd (EnumPoint.enumValue s)) = (values s ++ [res])%list /\
  timestamps (snd (EnumPoint.enumValue s)) =
    (timestamps s ++ [fst (datetime_now w)])%list /\
  (forall e, py_int res = Raise e -> fst (EnumPoint.enumValue s) = Raise e).
Proof.
  intros E. rewrite (enumValue_ok _ _ _ E). simpl.
  split; [reflexivity|]. split; [apply after_read_values|].
  split; [apply after_read_timestamps|]. intros e I. now rewrite I.
Qed.

(** Printing an enumerated point reads the device: with a raw index [i]
    between 1 and the size of the table, [EnumPoint.__repr__] gives the
    name, [" : "] and the label [states[i-1]], and the reading is appended
    to the history. *)
Theorem enum_repr_reads (s : state W) (res : pyval) (w : W)
    (states : list pyval) (i : Z) :
  the_read s = (Ok res, w) ->
  py_int res = Ok i ->
  Obj.units_state (Obj.properties (self s)) = StateTable states ->
  1 <= i <= Z.of_nat (List.length states) ->
  exists label,
    nth_error states (Z.to_nat (i - 1)) = Some label /\
    EnumPoint.__repr__ s =
    (Ok (Obj.name (Obj.properties (self s)) ++ " : " ++ py_str label),
     after_read s res w).
Proof.
  intros E I U R. rewrite enum_repr_run, (enumValue_ok _ _ _ E), I, U.
  cbn [fst snd py_subscript].
  destruct (py_index_nonneg states (i - 1)) as (label & Nth & ->); [lia|].
  now exists label.
Qed.
End EnumDecoding.

(** [enumValue_index_bounds] on the table [Off, On, Auto]: index -2 is in
    range and gives ["Off"]; index -3 is not. *)
Lemma enumValue_index_bounds_witness :
  fst (EnumPoint.enumValue (H := StubDevice.clock)
         (rt := StubRuntime.runtime)
         (StubDevice.multistate_input (PyInt (-2)))) = Ok (PyStr "Off") /\
  fst (EnumPoint.enumValue (H := StubDevice.clock)
         (rt := StubRuntime.runtime)
         (StubDevice.multistate_input (PyInt (-3)))) =
    Raise (IndexError "index out of range").
Proof.
  destruct (enumValue_index_bounds (H := StubDevice.clock)
              (rt := StubRuntime.runtime)
              (StubDevice.multistate_input (PyInt (-2))) (PyInt (-2)) 1
              StubDevice.three_states (-2) eq_refl eq_refl eq_refl)
    as [In _].
  destruct (enumValue_index_bounds (H := StubDevice.clock)
              (rt := StubRuntime.runtime)
              (StubDevice.multistate_input (PyInt (-3))) (PyInt (-3)) 1
              StubDevice.three_states (-3) eq_refl eq_refl eq_refl)
    as [_ Out].
  split.
  - destruct In as (label & Nth & ->); [simpl; lia|].
    simpl in Nth. congruence.
  - apply Out. simpl. lia.
Defined.

(** [undecodable_reading_is_recorded] on a device that answers ["abc"]:
    [enumValue] raises the [ValueError] of [int], and the history holds
    ["abc"]. *)
Lemma undecodable_reading_is_recorded_witness :
  the_read (StubDevice.multistate_input (PyStr "abc")) =
    (Ok (PyStr "abc"), 1) /\
  fst (EnumPoint.enumValue (H := StubDevice.clock)
         (rt := StubRuntime.runtime)
         (StubDevice.multistate_input (PyStr "abc"))) =
    Raise (ValueError "invalid literal for int() with base 10") /\
  values (snd (EnumPoint.enumValue (H := StubDevice.clock)
                 (rt := StubRuntime.runtime)
                 (StubDevice.multistate_input (PyStr "abc")))) =
    [PyNone; PyStr "abc"].
Proof.
  assert (E : the_read (StubDevice.multistate_input (PyStr "abc")) =
              (Ok (PyStr "abc"), 1)) by reflexivity.
  destruct (undecodable_reading_is_recorded (H := StubDevice.clock)
              (rt := StubRuntime.runtime) _ _ _ E) as (_ & V & _ & R).
  split; [exact E|]. split; [apply R; reflexivity | exact V].
Defined.

(** [enum_repr_reads] on a device that answers 2. *)
Lemma enum_repr_reads_witness :
  fst (EnumPoint.__repr__ (H := StubDevice.clock) (rt := StubRuntime.runtime)
         (StubDevice.multistate_input (PyInt 2))) = Ok "pt : On".
Proof.
  destruct (enum_repr_reads (H := StubDevice.clock)
              (rt := StubRuntime.runtime)
              (StubDevice.multistate_input (PyInt 2)) (PyInt 2) 1
              StubDevice.three_states 2 eq_refl eq_refl eq_refl)
    as (label & Nth & ->); [simpl; lia|].
  simpl in Nth. inversion Nth. reflexivity.
Defined.

(** [failed_read_is_atomic] on a device that does not answer. *)
Lemma failed_read_is_atomic_witness :
  the_read StubDevice.unreachable_input = (Raise StubDevice.timeout, 1) /\
  fst (EnumPoint.enumValue (H := StubDevice.clock)
         (rt := StubRuntime.runtime) StubDevice.unreachable_input) =
    Raise StubDevice.timeout /\
  values (snd (BooleanPoint.__repr__ (H := StubDevice.clock)
                 (rt := StubRuntime.runtime) StubDevice.unreachable_input)) =
    [PyNone].
Proof.
  assert (E : the_read StubDevice.unreachable_input =
              (Raise StubDevice.timeout, 1)) by reflexivity.
  destruct (failed_read_is_atomic (H := StubDevice.clock)
              (rt := StubRuntime.runtime) (fmt := StubRuntime.format)
              _ _ _ E) as (_ & _ & _ & (R & _) & _ & (_ & S) & _).
  split; [exact E|]. split; [exact R|].
  unfold values. now rewrite S.
Defined.

(** [boolean_repr_reads] on a device that answers ["active"]. *)
Lemma boolean_repr_reads_witness :
  fst (BooleanPoint.__repr__ (H := StubDevice.clock)
         (rt := StubRuntime.runtime)
         (StubDevice.binary_input (PyStr "active"))) = Ok "pt : True".
Proof.
  destruct (boolean_repr_reads (H := StubDevice.clock)
              (rt := StubRuntime.runtime)
              (StubDevice.binary_input (PyStr "active")) (PyStr "active") 1
              eq_refl) as (T & _).
  exact T.
Defined.

(** [numeric_repr_reads] on a device that answers 21.5, in degrees. *)
Lemma numeric_repr_reads_witness :
  fst (NumericPoint.__repr__ (H := StubDevice.clock)
         (rt := StubRuntime.runtime) (fmt := StubRuntime.format)
         (StubDevice.numeric_input StubDevice.accepting)) =
    Ok "pt : 21.50 degC".
Proof.
  destruct (numeric_repr_reads (H := StubDevice.clock)
              (rt := StubRuntime.runtime) (fmt := StubRuntime.format)
              (StubDevice.numeric_input StubDevice.accepting)
              (PyFloat StubDevice.f21_5) 1 eq_refl) as (_ & _ & T & _).
  now rewrite (T _ eq_refl).
Defined.

(** ** What each kind of method can do *)

Section StepKinds.
Context {W : Type} `{World W} {rt : PyRuntime} {pd : Pandas}.

Lemma sent_quiet entry (c : call) cmd (s : state W) :
  is_read c = false -> quiet_step s (snd (sent entry c cmd s)).
Proof. intros R. unfold sent. simpl. now apply quiet_call. Qed.

Lemma write_quiet (v : pyval) (prop : string) (p : pyval) (s : state W) :
  quiet_step s (snd (Point.write v prop p s)).
Proof.
  destruct (py_ne_str p "") eqn:G.
  - destruct (accepted p) eqn:A.
    + rewrite write_accepted by assumption. now apply sent_quiet.
    + rewrite write_rejected by assumption. apply quiet_same.
  - unfold py_ne_str in G. apply negb_false_iff, py_eq_str_true in G.
    subst p. rewrite write_without_priority. now apply sent_quiet.
Qed.

Lemma sent_then_flag entry (c : call) cmd (f : Obj.point W -> Obj.point W)
    (s : state W) :
  is_read c = false -> is_flag_setter f ->
  control_step s
    (snd (match sent entry c cmd s with
          | (Ok _, s') => (Ok tt, with_self f s')
          | (Raise e, s') => (Raise e, s')
          end)).
Proof.
  intros R F.
  destruct (sent_outcome entry c cmd s) as [(r & _ & ->)|(e & _ & ->)]; simpl.
  - now apply control_flag.
  - apply control_quiet. now apply quiet_call.
Qed.

Lemma sim_control (v : pyval) (s : state W) :
  control_step s (snd (Point.sim v s)).
Proof.
  rewrite sim_run. apply sent_then_flag; [reflexivity|]. exists true. auto.
Qed.

Lemma release_control (s : state W) : control_step s (snd (Point.release s)).
Proof.
  rewrite release_run. apply sent_then_flag; [reflexivity|]. exists false. auto.
Qed.

Lemma ovr_control (v : pyval) (s : state W) :
  control_step s (snd (Point.ovr v s)).
Proof.
  rewrite ovr_run. apply sent_then_flag; [reflexivity|]. exists true. auto.
Qed.

Lemma auto_control (s : state W) : control_step s (snd (Point.auto s)).
Proof.
  rewrite auto_run. apply sent_then_flag; [reflexivity|]. exists false. auto.
Qed.

Lemma setitem_control (v : pyval) (s : state W) :
  control_step s (snd (Point._setitem v s)).
Proof.
  rewrite setitem_run.
  destruct (str_in "Value" _); [apply control_quiet, write_quiet|].
  destruct (str_in "Output" _); [apply ovr_control | apply sim_control].
Qed.

Lemma numeric_set_control (v : pyval) (s : state W) :
  control_step s (snd (NumericPoint._set v s)).
Proof.
  unfold NumericPoint._set, bind, lift.
  destruct (py_float v); [apply setitem_control|].
  apply control_quiet, quiet_same.
Qed.

Lemma invoke_quiet (m : method) (s : state W) :
  is_accessor m = false -> is_control m = false -> quiet_step s (invoke m s).
Proof.
  destruct m; simpl; intros A C; try discriminate;
    try apply quiet_same; try apply write_quiet.
Qed.

Lemma invoke_control (m : method) (s : state W) :
  is_control m = true -> control_step s (invoke m s).
Proof.
  destruct m; simpl; intros C; try discriminate.
  - apply sim_control.
  - apply release_control.
  - apply ovr_control.
  - apply auto_control.
  - apply setitem_control.
  - apply numeric_set_control.
Qed.

Lemma invoke_read (m : method) (s : state W) :
  is_accessor m = true -> read_step s (invoke m s).
Proof.
  destruct m; simpl; intros A; try discriminate;
    destruct (the_read s) as [[res|e] w] eqn:E.
  - rewrite (value_ok _ _ _ E). apply read_plain.
  - rewrite (value_raise _ _ _ E). apply read_failed.
  - rewrite (boolean_value_ok _ _ _ E). apply read_cached. now left.
  - rewrite (boolean_value_raise _ _ _ E). apply read_failed.
  - rewrite (boolValue_ok _ _ _ E). simpl.
    apply (read_cached s res w
             (fun p => cache_of_boolValue res (cache_of_value res p))).
    now right.
  - rewrite (boolValue_raise _ _ _ E). apply read_failed.
  - rewrite (enumValue_ok _ _ _ E). apply read_plain.
  - rewrite (enumValue_raise _ _ _ E). apply read_failed.
Qed.

(** A method is an accessor, a control method, or neither. *)
Lemma method_kind (m : method) :
  (is_accessor m = true /\ is_control m = false) \/
  (is_accessor m = false /\ is_control m = true) \/
  (is_accessor m = false /\ is_control m = false).
Proof. destruct m; simpl; auto. Qed.

Lemma quiet_step_self (s s' : state W) : quiet_step s s' -> self s' = self s.
Proof. now intros []. Qed.

Lemma quiet_step_calls (s s' : state W) :
  quiet_step s s' ->
  calls s' = calls s \/
  exists c, is_read c = false /\ calls s' = (calls s ++ [c])%list.
Proof. intros [|c w R]; [now left | right; now exists c]. Qed.

Lemma control_step_calls (s s' : state W) :
  control_step s s' ->
  calls s' = calls s \/
  exists c, is_read c = false /\ calls s' = (calls s ++ [c])%list.
Proof.
  intros [s'' Q|f c w R F]; [now apply quiet_step_calls|].
  right. now exists c.
Qed.

Lemma control_step_keeps (s s' : state W) :
  control_step s s' ->
  Obj._history (self s') = Obj._history (self s) /\
  Obj._key (self s') = Obj._key (self s) /\
  Obj._boolKey (self s') = Obj._boolKey (self s) /\
  same_identity (Obj.properties (self s)) (Obj.properties (self s')).
Proof.
  intros [s'' Q|f c w R (b & [-> | ->])].
  - rewrite (quiet_step_self _ _ Q). unfold same_identity. tauto.
  - unfold same_identity. simpl. tauto.
  - unfold same_identity. simpl. tauto.
Qed.

Lemma after_read_cache (s : state W) (res : pyval) (w : W) :
  Obj._key (self (after_read s res w)) = Obj._key (self s) /\
  Obj._boolKey (self (after_read s res w)) = Obj._boolKey (self s).
Proof. unfold after_read. destruct (datetime_now w). auto. Qed.

Lemma read_step_properties (s s' : state W) :
  read_step s s' -> Obj.properties (self s') = Obj.properties (self s).
Proof.
  intros [w|res w|res w f [-> | ->]]; simpl.
  - reflexivity.
  - apply after_read_properties.
  - rewrite cache_of_value_properties. apply after_read_properties.
  - rewrite cache_of_boolValue_properties, cache_of_value_properties.
    apply after_read_properties.
Qed.

Lemma read_step_calls (s s' : state W) :
  read_step s s' ->
  calls s' = (calls s ++ [CallRead (Obj.name (Obj.properties (self s)))])%list.
Proof.
  intros [w|res w|res w f _]; simpl; try reflexivity; apply after_read_calls.
Qed.

Lemma read_step_values (s s' : state W) :
  read_step s s' ->
  values s' = values s \/ exists res, values s' = (values s ++ [res])%list.
Proof.
  intros [w|res w|res w f [-> | ->]].
  - now left.
  - right. exists res. apply after_read_values.
  - right. exists res. unfold values. simpl.
    rewrite cache_of_value_history. apply after_read_values.
  - right. exists res. unfold values. simpl.
    rewrite cache_of_boolValue_history, cache_of_value_history.
    apply after_read_values.
Qed.

Lemma cache_of_value_agrees (res : pyval) (p : Obj.point W) :
  cache_agrees (cache_of_value res p).
Proof.
  unfold cache_of_value, cache_agrees.
  destruct (py_eq_str res "inactive"); reflexivity.
Qed.

Lemma cache_of_boolValue_agrees (res : pyval) (p : Obj.point W) :
  cache_agrees (cache_of_boolValue res p).
Proof.
  unfold cache_of_boolValue, cache_agrees.
  destruct (py_eq_str res "active"); reflexivity.
Qed.

Lemma read_step_cache (s s' : state W) :
  read_step s s' -> cache_agrees (self s) -> cache_agrees (self s').
Proof.
  intros [w|res w|res w f [-> | ->]] C; simpl.
  - exact C.
  - unfold cache_agrees in *.
    destruct (after_read_cache s res w) as [-> ->]. exact C.
  - apply cache_of_value_agrees.
  - apply cache_of_boolValue_agrees.
Qed.

Lemma invoke_cache (m : method) (s : state W) :
  cache_agrees (self s) -> cache_agrees (self (invoke m s)).
Proof.
  intros C.
  destruct (method_kind m) as [[A _]|[[_ K]|[A K]]].
  - apply (read_step_cache s); [now apply invoke_read | exact C].
  - destruct (control_step_keeps _ _ (invoke_control m s K))
      as (_ & Ek & Eb & _).
    unfold cache_agrees in *. now rewrite Ek, Eb.
  - now rewrite (quiet_step_self _ _ (invoke_quiet m s A K)).
Qed.

Lemma invoke_identity (m : method) (s : state W) :
  same_identity (Obj.properties (self s)) (Obj.properties (self (invoke m s))).
Proof.
  destruct (method_kind m) as [[A _]|[[_ K]|[A K]]].
  - rewrite (read_step_properties _ _ (invoke_read m s A)).
    unfold same_identity. tauto.
  - apply (control_step_keeps _ _ (invoke_control m s K)).
  - rewrite (quiet_step_self _ _ (invoke_quiet m s A K)).
    unfold same_identity. tauto.
Qed.

Lemma count_reads_app (l : list call) (c : call) :
  count_reads (l ++ [c]) = (count_reads l + (if is_read c then 1 else 0))%nat.
Proof.
  unfold count_reads. rewrite filter_app, length_app. simpl.
  destruct (is_read c); reflexivity.
Qed.

(** One call at most, and a new history entry only with a read. *)
Lemma invoke_counts (m : method) (s : state W) :
  (List.length (calls (invoke m s)) <= S (List.length (calls s)))%nat /\
  (List.length (values (invoke m s)) + count_reads (calls s) <=
   List.length (values s) + count_reads (calls (invoke m s)))%nat.
Proof.
  destruct (method_kind m) as [[A _]|[[_ K]|[A K]]].
  - pose proof (invoke_read m s A) as R.
    rewrite (read_step_calls _ _ R), count_reads_app, length_app. simpl.
    destruct (read_step_values _ _ R) as [->|(res & ->)];
      [|rewrite length_app; simpl]; lia.
  - pose proof (invoke_control m s K) as C.
    destruct (control_step_keeps _ _ C) as (Eh & _).
    unfold values. rewrite Eh.
    destruct (control_step_calls _ _ C) as [->|(c & R & ->)];
      [|rewrite count_reads_app, length_app; simpl]; lia.
  - pose proof (invoke_quiet m s A K) as Q.
    unfold values. rewrite (quiet_step_self _ _ Q).
    destruct (quiet_step_calls _ _ Q) as [->|(c & R & ->)];
      [|rewrite count_reads_app, length_app; simpl]; lia.
Qed.
End StepKinds.

Section MethodKinds.
Context {W : Type} `{World W} {rt : PyRuntime} {pd : Pandas}.

(** Who may change what.  A method that is neither an accessor nor a
    control method ([write], [default], [lastValue], [history], the
    [units] and the methods that only raise) leaves the point object
    exactly as it was.  A control method ([sim], [release], [ovr], [auto],
    [_setitem], [NumericPoint._set]) never touches the history or the
    cached keys.  An accessor never touches the properties, so never a
    flag.  Only an accessor reads the device. *)
Theorem methods_by_kind (m : method) (s : state W) :
  (is_accessor m = false -> is_control m = false ->
   self (invoke m s) = self s) /\
  (is_control m = true ->
   Obj._history (self (invoke m s)) = Obj._history (self s) /\
   Obj._key (self (invoke m s)) = Obj._key (self s) /\
   Obj._boolKey (self (invoke m s)) = Obj._boolKey (self s)) /\
  (is_accessor m = true ->
   Obj.properties (self (invoke m s)) = Obj.properties (self s)) /\
  (is_accessor m = false ->
   count_reads (calls (invoke m s)) = count_reads (calls s)).
Proof.
  split; [intros A K; apply quiet_step_self; now apply invoke_quiet|].
  split.
  { intros K.
    destruct (control_step_keeps _ _ (invoke_control m s K)) as (? & ? & ? & _).
    auto. }
  split; [intros A; apply read_step_properties; now apply invoke_read|].
  intros A.
  assert (Q : calls (invoke m s) = calls s \/
              exists c, is_read c = false /\
                        calls (invoke m s) = (calls s ++ [c])%list).
  { destruct (is_control m) eqn:K.
    - apply control_step_calls. now apply invoke_control.
    - apply quiet_step_calls. now apply invoke_quiet. }
  destruct Q as [->|(c & R & ->)]; [reflexivity|].
  rewrite count_reads_app, R. apply Nat.add_0_r.
Qed.

(** [write] and [default] never change the point and send at most one
    command, always to the [write] entry point of the network object.
    Without a priority there is no test to fail: exactly one command is
    sent, and [default(v)] sends the write of [relinquishDefault]. *)
Theorem write_sends_at_most_one_command (v : pyval) (prop : string)
    (p : pyval) (s : state W) :
  self (snd (Point.write v prop p s)) = self s /\
  (calls (snd (Point.write v prop p s)) = calls s \/
   exists cmd,
     calls (snd (Point.write v prop p s)) = (calls s ++ [CallWrite cmd])%list)
  /\
  calls (snd (Point.write v prop (PyStr "") s)) =
    (calls s ++ [CallWrite (Point.write_command (self s) v prop (PyStr ""))])%list
  /\
  self (snd (Point.default v s)) = self s /\
  calls (snd (Point.default v s)) =
    (calls s ++
     [CallWrite
        (Point.write_command (self s) v "relinquishDefault" (PyStr ""))])%list.
Proof.
  split; [apply write_self|]. split.
  { destruct (py_ne_str p "") eqn:G.
    - destruct (accepted p) eqn:A.
      + rewrite write_accepted by assumption. right. eexists. reflexivity.
      + rewrite write_rejected by assumption. now left.
    - unfold py_ne_str in G. apply negb_false_iff, py_eq_str_true in G.
      subst p. rewrite write_without_priority. right. eexists. reflexivity. }
  split; [now rewrite write_without_priority|].
  unfold Point.default. split; [apply write_self|].
  now rewrite write_without_priority.
Qed.

Lemma setitem_sends_one (v : pyval) (s : state W) :
  exists c, is_read c = false /\
            calls (snd (Point._setitem v s)) = (calls s ++ [c])%list.
Proof.
  rewrite setitem_run.
  destruct (str_in "Value" _).
  { rewrite write_without_priority. eexists. split; [|reflexivity].
    reflexivity. }
  destruct (str_in "Output" _).
  - rewrite ovr_run. unfold sent_write.
    destruct (sent_outcome (Network.write (network_of s))
                (CallWrite (override_command s v)) (override_command s v) s)
      as [(r & _ & ->)|(e & _ & ->)];
      (eexists; split; [|reflexivity]; reflexivity).
  - rewrite sim_run. unfold sent_sim.
    destruct (sent_outcome (Network.sim (network_of s))
                (CallSim (Point.sim_command (self s) v))
                (Point.sim_command (self s) v) s)
      as [(r & _ & ->)|(e & _ & ->)];
      (eexists; split; [|reflexivity]; reflexivity).
Qed.

(** [NumericPoint._set(v)] sends a command exactly when [float(v)]
    returns.  If [float(v)] raises, that exception is the caller's, nothing
    is sent and nothing changes.  If it returns, [_set(v)] is
    [_setitem(v)], which sends exactly one command, and never a read. *)
Theorem numeric_set_validates (v : pyval) (s : state W) :
  (forall e, py_float v = Raise e -> NumericPoint._set v s = (Raise e, s)) /\
  (forall f, py_float v = Ok f ->
     NumericPoint._set v s = Point._setitem v s /\
     exists c, is_read c = false /\
               calls (snd (NumericPoint._set v s)) = (calls s ++ [c])%list).
Proof.
  unfold NumericPoint._set, bind at 1 2 3, lift.
  split; [intros e ->; reflexivity|].
  intros f ->. split; [reflexivity | apply setitem_sends_one].
Qed.
End MethodKinds.

(** [methods_by_kind] on a stub device: [write] changes nothing in the
    point, [sim] leaves the history alone, [value] leaves the flags alone. *)
Lemma methods_by_kind_witness :
  self (invoke (H := StubDevice.clock) (rt := StubRuntime.runtime)
          (pd := StubPandas.pandas)
          (Point_write (PyInt 3) "presentValue" (PyInt 8))
          StubDevice.overridden_input) = self StubDevice.overridden_input /\
  values (invoke (H := StubDevice.clock) (rt := StubRuntime.runtime)
          (pd := StubPandas.pandas)
            (Point_sim (PyInt 3)) StubDevice.overridden_input) = [PyNone] /\
  overridden (invoke (H := StubDevice.clock) (rt := StubRuntime.runtime)
          (pd := StubPandas.pandas)
                Point_value StubDevice.overridden_input) = true.
Proof.
  destruct (methods_by_kind (H := StubDevice.clock) (rt := StubRuntime.runtime)
          (pd := StubPandas.pandas)
              (Point_write (PyInt 3) "presentValue" (PyInt 8))
              StubDevice.overridden_input) as (Q & _).
  destruct (methods_by_kind (H := StubDevice.clock) (rt := StubRuntime.runtime)
          (pd := StubPandas.pandas)
              (Point_sim (PyInt 3)) StubDevice.overridden_input)
    as (_ & K & _).
  destruct (methods_by_kind (H := StubDevice.clock) (rt := StubRuntime.runtime)
          (pd := StubPandas.pandas)
              Point_value StubDevice.overridden_input) as (_ & _ & A & _).
  split; [exact (Q eq_refl eq_refl)|]. split.
  - destruct (K eq_refl) as (Eh & _). unfold values. now rewrite Eh.
  - unfold overridden. now rewrite (A eq_refl).
Defined.

(** [numeric_set_validates] on a stub device: ["abc"] is refused by
    [float] and nothing is sent; 21.5 on an [analogValue] is written. *)
Lemma numeric_set_validates_witness :
  NumericPoint._set (rt := StubRuntime.runtime) (PyStr "abc")
    (StubDevice.numeric_value StubDevice.accepting) =
  (Raise (ValueError "could not convert string to float"),
   StubDevice.numeric_value StubDevice.accepting) /\
  NumericPoint._set (rt := StubRuntime.runtime) (PyFloat StubDevice.f21_5)
    (StubDevice.numeric_value StubDevice.accepting) =
  Point._setitem (rt := StubRuntime.runtime) (PyFloat StubDevice.f21_5)
    (StubDevice.numeric_value StubDevice.accepting).
Proof.
  destruct (numeric_set_validates (rt := StubRuntime.runtime) (PyStr "abc")
              (StubDevice.numeric_value StubDevice.accepting)) as [R _].
  destruct (numeric_set_validates (rt := StubRuntime.runtime)
              (PyFloat StubDevice.f21_5)
              (StubDevice.numeric_value StubDevice.accepting)) as [_ S].
  split; [apply R; reflexivity|].
  now destruct (S _ eq_refl).
Defined.

(** ** Invariants of a point's life *)

Section Life.
Context {W : Type} `{World W} {rt : PyRuntime} {pd : Pandas}.
Variable device : Device.t W.
Variables pointType pointName : string.
Variables pointAddress description presentValue : pyval.
Variable units_state : units_state_t.
Variable w : W.

Local Abbreviation born :=
  (constructed device pointType pointAddress pointName description
     presentValue units_state w).

Lemma born_self :
  self born =
  Obj.mk_point
    (Obj.mk_properties device pointName pointType pointAddress description
       units_state false false)
    (Obj.mk_history [fst (datetime_now w)] [presentValue]) None None /\
  calls born = [].
Proof.
  unfold constructed, Point.__init__. destruct (datetime_now w). auto.
Qed.

Lemma run_snoc (ms : list method) (m : method) (s : state W) :
  run (ms ++ [m]) s = invoke m (run ms s).
Proof. unfold run. now rewrite fold_left_app. Qed.

(** The identity of a point never changes: whatever methods are called,
    the device, the name, the type, the address, the description and the
    units or state table are those given at construction. *)
Theorem identity_is_preserved (ms : list method) (m : method)
    (s : state W) :
  same_identity (Obj.properties (self s)) (Obj.properties (self (invoke m s)))
  /\
  Obj.device (Obj.properties (self (run ms born))) = device /\
  Obj.name (Obj.properties (self (run ms born))) = pointName /\
  Obj.type (Obj.properties (self (run ms born))) = pointType /\
  Obj.address (Obj.properties (self (run ms born))) = pointAddress /\
  Obj.description (Obj.properties (self (run ms born))) = description /\
  Obj.units_state (Obj.properties (self (run ms born))) = units_state.
Proof.
  split; [apply invoke_identity|].
  induction ms as [|m' ms IH] using rev_ind.
  - simpl. destruct born_self as [-> _]. simpl. tauto.
  - rewrite run_snoc.
    destruct (invoke_identity m' (run ms born)) as (D & N & T & A & De & U).
    rewrite D, N, T, A, De, U. exact IH.
Qed.

(** The two cached keys of a Boolean point always agree: after any
    sequence of calls, [_key] and [_boolKey] are both absent, or [_key] is
    1 with [_boolKey] true, or [_key] is 0 with [_boolKey] false. *)
Theorem cache_keys_agree (ms : list method) :
  cache_agrees (self (run ms born)) /\
  (Obj._key (self (run ms born)) = None /\
   Obj._boolKey (self (run ms born)) = None \/
   Obj._key (self (run ms born)) = Some 1 /\
   Obj._boolKey (self (run ms born)) = Some true \/
   Obj._key (self (run ms born)) = Some 0 /\
   Obj._boolKey (self (run ms born)) = Some false).
Proof.
  assert (C : cache_agrees (self (run ms born))).
  { induction ms as [|m ms IH] using rev_ind.
    - simpl. destruct born_self as [-> _]. exact I.
    - rewrite run_snoc. now apply invoke_cache. }
  split; [exact C|]. unfold cache_agrees in C.
  destruct (Obj._key (self (run ms born))) as [k|],
           (Obj._boolKey (self (run ms born))) as [[|]|];
    try contradiction; subst; auto.
Qed.

(** Calls and history entries are bounded by what was asked: [k] method
    calls make at most [k] calls to the collaborator, and the history
    holds at most one entry more than the reads made, so every entry but
    the seed comes from a read of the device. *)
Theorem calls_and_history_are_bounded (ms : list method) :
  (List.length (calls (run ms born)) <= List.length ms)%nat /\
  (List.length (values (run ms born)) <=
   1 + count_reads (calls (run ms born)))%nat.
Proof.
  induction ms as [|m ms [IHc IHv]] using rev_ind.
  - simpl. destruct born_self as [S ->]. unfold values. rewrite S. simpl.
    split; lia.
  - rewrite run_snoc, length_app. simpl.
    destruct (invoke_counts m (run ms born)) as [Cc Cv]. split; lia.
Qed.

(** On a point reached from construction by any calls, [lastValue] never
    fails: it returns the last value of the history, makes no call and
    changes nothing.  Right after construction that value is
    [presentValue]. *)
Theorem lastValue_on_reachable (ms : list method) :
  Point.lastValue (run ms born) =
    (Ok (last (values (run ms born)) presentValue), run ms born) /\
  fst (Point.lastValue born) = Ok presentValue.
Proof.
  assert (N : forall ms, values (run ms born) <> []).
  { intros ms'. destruct (reachable_history device pointType pointName
                            pointAddress description presentValue
                            units_state w ms') as (_ & ts & vs & _ & ->).
    discriminate. }
  split; [apply lastValue_run, N|].
  rewrite (lastValue_run born presentValue (N [])).
  destruct born_self as [S _]. unfold values. now rewrite S.
Qed.
End Life.

(** ** The [history] accessor *)

Section HistoryAccessor.
Context {W : Type} `{World W} {rt : PyRuntime} {pd : Pandas}.

Lemma no_read_keeps_history (m : method) (s : state W) :
  is_accessor m = false ->
  Obj._history (self (invoke m s)) = Obj._history (self s).
Proof.
  intros A. destruct (is_control m) eqn:K.
  - apply (control_step_keeps _ _ (invoke_control m s K)).
  - now rewrite (quiet_step_self _ _ (invoke_quiet m s A K)).
Qed.

Lemma no_reads_keep_history (ms : list method) (s : state W) :
  no_read_among ms = true ->
  Obj._history (self (run ms s)) = Obj._history (self s).
Proof.
  revert s. induction ms as [|m ms IH]; intros s N; [reflexivity|].
  simpl in N. apply andb_true_iff in N. destruct N as [A N].
  apply negb_true_iff in A.
  change (run (m :: ms) s) with (run ms (invoke m s)).
  rewrite (IH _ N). now apply no_read_keeps_history.
Qed.

Lemma history_run (s : state W) :
  Point.history s = (pd_Series (values s) (timestamps s), s).
Proof. reflexivity. Qed.

(** C9.  [history] returns the series that pandas builds from the values
    and the time stamps of the history, and leaves the state as it was:
    history, flags, caches and calls.  So any number of [history] calls in
    a row leave the state where it was, and after any calls among which
    there is no [value] read (other [history] calls, writes, [sim],
    [release], [ovr], [auto], ...) the two lists are the same and
    [history] gives the identical series.  A [value] read in between does
    change it: the series is then built from lists one entry longer. *)
Theorem history_without_read_is_identical (s : state W) (ms : list method)
    (n : nat) :
  Point.history s = (pd_Series (values s) (timestamps s), s) /\
  run (repeat Point_history n) s = s /\
  (no_read_among ms = true ->
   values (run ms s) = values s /\
   timestamps (run ms s) = timestamps s /\
   fst (Point.history (run ms s)) = fst (Point.history s)) /\
  (forall res w, the_read s = (Ok res, w) ->
   fst (Point.history (snd (Point.value s))) =
     pd_Series (values s ++ [res])%list
       (timestamps s ++ [fst (datetime_now w)])%list).
Proof.
  split; [apply history_run|]. split.
  { induction n as [|n IH]; [reflexivity|]. exact IH. }
  split.
  - intros N. pose proof (no_reads_keep_history ms s N) as E.
    rewrite !history_run. unfold values, timestamps. rewrite E. auto.
  - intros res w E. rewrite history_run, (value_ok _ _ _ E). simpl.
    now rewrite after_read_values, after_read_timestamps.
Qed.
End HistoryAccessor.

(** C9, on a stub device: after one read of 21.5, a [history] call, a
    write at priority 8, a [sim] and another [history] call leave the
    series as it was, with NaN for the seed [None]. *)
Lemma history_without_read_is_identical_witness :
  no_read_among
    [Point_history; Point_write (PyInt 3) "presentValue" (PyInt 8);
     Point_sim (PyInt 5); Point_history] = true /\
  fst (Point.history (pd := StubPandas.pandas)
         (run (H := StubDevice.clock) (rt := StubRuntime.runtime)
            (pd := StubPandas.pandas)
            [Point_history; Point_write (PyInt 3) "presentValue" (PyInt 8);
             Point_sim (PyInt 5); Point_history]
            StubDevice.read_once)) =
    Ok (StubPandas.mk_series [0; 1]
          [PyFloat S754_nan; PyFloat StubDevice.f21_5]) /\
  the_read StubDevice.read_once = (Ok (PyFloat StubDevice.f21_5), 2) /\
  fst (Point.history (pd := StubPandas.pandas)
         (snd (Point.value (H := StubDevice.clock) StubDevice.read_once))) =
    Ok (StubPandas.mk_series [0; 1; 2]
          [PyFloat S754_nan; PyFloat StubDevice.f21_5;
           PyFloat StubDevice.f21_5]).
Proof.
  destruct (history_without_read_is_identical (H := StubDevice.clock)
              (rt := StubRuntime.runtime) (pd := StubPandas.pandas)
              StubDevice.read_once
              [Point_history; Point_write (PyInt 3) "presentValue" (PyInt 8);
               Point_sim (PyInt 5); Point_history] 2)
    as (_ & _ & Same & Read).
  split; [reflexivity|]. split.
  - destruct (Same eq_refl) as (_ & _ & ->). reflexivity.
  - split; [reflexivity|]. now rewrite (Read _ _ eq_refl).
Defined.
